(** * Diagram synthesis pipeline of atoms.tech: a shallow embedding

    The development follows [src/fetch_req_diagramType.py] (the endpoint
    [/api/fetch_req_diagramType]) and its earlier variant
    [src/python_fastapi/fetch_req_diagramType.py] (the endpoint [/diagram]).

    Text is modelled as [string]; a character of type [ascii] stands for the
    Unicode code point of the same number, so the model covers every Python
    [str] over U+0000..U+00FF.  On that range [str.lower], [str.isspace] and
    the line boundaries of [str.splitlines] map one character to one
    character, which is what the definitions below write out. *)

From Stdlib Require Import String Ascii List Bool Arith Lia.
From stdpp Require Import base gmap strings pretty.

Import ListNotations.
Local Open Scope string_scope.

(* stdpp keeps [String.append] folded; the proofs below compute with it. *)
#[local] Arguments String.append !_ _ / : simpl nomatch.

(** ** Python's [str] methods used by the pipeline *)

Module PyStr.

Definition LF : ascii := "010"%char.
Definition CR : ascii := "013"%char.
Definition NL : string := String LF EmptyString.

(** [str.isspace] of one character: U+0009..U+000D, U+001C..U+001F,
    U+0020, U+0085 and U+00A0. *)
Definition isspace (c : ascii) : bool :=
  let n := nat_of_ascii c in
  (((9 <=? n) && (n <=? 13)) || ((28 <=? n) && (n <=? 32))
   || (n =? 133) || (n =? 160))%nat.

(** The line boundaries of [str.splitlines]: LF, VT, FF, CR, FS, GS, RS
    and NEL (CR LF counts once, see [splitlines]). *)
Definition is_linebreak (c : ascii) : bool :=
  let n := nat_of_ascii c in
  (((10 <=? n) && (n <=? 13)) || ((28 <=? n) && (n <=? 30)) || (n =? 133))%nat.

(** [str.lower] of one character: A-Z, and U+00C0..U+00DE without the
    multiplication sign U+00D7, move up by 32. *)
Definition lower_char (c : ascii) : ascii :=
  let n := nat_of_ascii c in
  if (((65 <=? n) && (n <=? 90))
      || ((192 <=? n) && (n <=? 222) && negb (n =? 215)))%nat
  then ascii_of_nat (n + 32) else c.

Fixpoint lower (s : string) : string :=
  match s with
  | EmptyString => EmptyString
  | String c s' => String (lower_char c) (lower s')
  end.

Fixpoint lstrip (s : string) : string :=
  match s with
  | EmptyString => EmptyString
  | String c s' => if isspace c then lstrip s' else s
  end.

Fixpoint rstrip (s : string) : string :=
  match s with
  | EmptyString => EmptyString
  | String c s' =>
      match rstrip s' with
      | EmptyString => if isspace c then EmptyString else String c EmptyString
      | r => String c r
      end
  end.

(** [s.strip()] *)
Definition strip (s : string) : string := rstrip (lstrip s).

(** [s.startswith(p)] *)
Fixpoint startswith (s p : string) : bool :=
  match p, s with
  | EmptyString, _ => true
  | String _ _, EmptyString => false
  | String a p', String b s' => if Ascii.eqb a b then startswith s' p' else false
  end.

(** [s.startswith((p1, ..., pn))] *)
Definition startswith_any (s : string) (ps : list string) : bool :=
  existsb (startswith s) ps.

(** [s.split(sep)] for a one-character separator: never empty. *)
Fixpoint split (sep : ascii) (s : string) : list string :=
  match s with
  | EmptyString => [EmptyString]
  | String c s' =>
      if Ascii.eqb c sep then EmptyString :: split sep s'
      else match split sep s' with
           | l :: ls => String c l :: ls
           | [] => [String c EmptyString]
           end
  end.

(** [s.splitlines()]: the empty string has no line, and a final line
    boundary opens no further line. *)
Fixpoint splitlines (s : string) : list string :=
  match s with
  | EmptyString => []
  | String c s' =>
      if is_linebreak c then
        match s' with
        | String c' s'' =>
            if Ascii.eqb c CR && Ascii.eqb c' LF
            then EmptyString :: splitlines s''
            else EmptyString :: splitlines s'
        | EmptyString => [EmptyString]
        end
      else match splitlines s' with
           | l :: ls => String c l :: ls
           | [] => [String c EmptyString]
           end
  end.

(** [sep.join(l)] *)
Definition join (sep : string) (l : list string) : string := String.concat sep l.

(** The text is empty or its first character is not white space. *)
Definition starts_nonspace (s : string) : bool :=
  match s with
  | EmptyString => true
  | String c _ => negb (isspace c)
  end.

(** The text is empty or its last character is not white space. *)
Fixpoint ends_nonspace (s : string) : bool :=
  match s with
  | EmptyString => true
  | String c EmptyString => negb (isspace c)
  | String _ s' => ends_nonspace s'
  end.

(** No character of the text is white space. *)
Fixpoint no_space (s : string) : bool :=
  match s with
  | EmptyString => true
  | String c s' => negb (isspace c) && no_space s'
  end.

(** [l[0]] for a list of lines known to have one. *)
Definition first_line (l : list string) : string := hd EmptyString l.

(** A text all of whose characters are white space (the empty text
    included). *)
Fixpoint all_space (s : string) : bool :=
  match s with
  | EmptyString => true
  | String c s' => isspace c && all_space s'
  end.

End PyStr.

Import PyStr.

(** ** Exceptions and results *)

(** The exception classes the handlers tell apart: FastAPI's
    [HTTPException], [ValueError], and any other subclass of [Exception]
    (I/O errors, [IndexError], [KeyError], errors of the model client), kept
    with the text [str(exc)] gives. *)
Inductive exn : Type :=
| HTTPException (status_code : nat) (detail : string)
| ValueError (msg : string)
| OtherException (msg : string).

(** [str(exc)].  Starlette defines [HTTPException.__str__] as
    [f"{self.status_code}: {self.detail}"]. *)
Definition str (e : exn) : string :=
  match e with
  | HTTPException status_code detail => pretty status_code +:+ ": " +:+ detail
  | ValueError msg => msg
  | OtherException msg => msg
  end.

Inductive result (A : Type) : Type :=
| Return (a : A)
| Raise (e : exn).
Arguments Return {A} a.
Arguments Raise {A} e.

Definition bind {A B : Type} (c : result A) (k : A -> result B) : result B :=
  match c with
  | Return a => k a
  | Raise e => Raise e
  end.

Notation "'let*' x ':=' c 'in' k" := (bind c (fun x => k))
  (at level 10, x name, c at level 100, k at level 200).

(** [try: c  except Exception as exc: handler(exc)] *)
Definition try_except {A : Type} (c : result A) (handler : exn -> result A) : result A :=
  match c with
  | Return a => Return a
  | Raise exc => handler exc
  end.

(** [l[0]] *)
Definition getitem0 {A : Type} (l : list A) : result A :=
  match l with
  | x :: _ => Return x
  | [] => Raise (OtherException "list index out of range")
  end.

(** [d[k]] on a dict with string keys: a missing key raises [KeyError],
    whose [str] is the [repr] of the key. *)
Definition getitem (d : gmap string string) (k : string) : result string :=
  match d !! k with
  | Some v => Return v
  | None => Raise (OtherException ("'" +:+ k +:+ "'"))
  end.

(** ** The classifier and the serializer

    [clean_mermaid_code] and [convertToJson] have the same text in both
    source files. *)

Record Artifact : Type := { type : string; code : string }.

Definition headers : list string :=
  ["graph"; "flowchart"; "sequencediagram"; "classdiagram"].

(** The test both the first-line check and the classifier apply to a
    line: trimmed and lower-cased, it starts with one of the headers. *)
Definition header_test (line : string) : bool :=
  startswith_any (lower (strip line)) headers.

Definition clean_mermaid_code (text : string) : result Artifact :=
  let code := strip text in
  let* first := getitem0 (split LF code) in
  let start := lower (strip first) in
  if startswith start "graph" || startswith start "flowchart" then
    Return {| type := "flowchart"; code := code |}
  else if startswith start "sequencediagram" then
    Return {| type := "sequenceDiagram"; code := code |}
  else if startswith start "classdiagram" then
    Return {| type := "classDiagram"; code := code |}
  else Raise (ValueError "Invalid mermaid code").

(** The classifier's decision alone: the detected type, or the error. *)
Definition decision (r : result Artifact) : result string :=
  let* a := r in Return (type a).

Module Json.

Definition DQ : ascii := "034"%char.
Definition BS : ascii := "092"%char.

Definition hex_digit (n : nat) : ascii :=
  if (n <? 10)%nat then ascii_of_nat (48 + n) else ascii_of_nat (87 + n).

(** ['\\u{0:04x}'.format(n)] for [n < 256] *)
Definition u_escape (n : nat) : string :=
  String BS (String "u" (String "0" (String "0"
    (String (hex_digit (n / 16)) (String (hex_digit (n mod 16)) EmptyString))))).

(** One character under [json.dumps] with [ensure_ascii=True] (the
    default): the quote and the backslash get a backslash, BS, FF, LF, CR
    and TAB their short escapes, every other character outside
    U+0020..U+007E its [\uXXXX] escape. *)
Definition escape_char (c : ascii) : string :=
  let n := nat_of_ascii c in
  if Ascii.eqb c DQ then String BS (String DQ EmptyString)
  else if Ascii.eqb c BS then String BS (String BS EmptyString)
  else if (n =? 8)%nat then String BS "b"
  else if (n =? 12)%nat then String BS "f"
  else if (n =? 10)%nat then String BS "n"
  else if (n =? 13)%nat then String BS "r"
  else if (n =? 9)%nat then String BS "t"
  else if ((n <? 32) || (126 <? n))%nat then u_escape n
  else String c EmptyString.

Fixpoint escape (s : string) : string :=
  match s with
  | EmptyString => EmptyString
  | String c s' => escape_char c +:+ escape s'
  end.

Definition encode_str (s : string) : string :=
  String DQ (escape s +:+ String DQ EmptyString).

(** [json.dumps(obj, separators=(item_separator, key_separator))] for a
    dict [obj] from strings to strings, given as its items in order. *)
Definition dumps (obj : list (string * string))
    (item_separator key_separator : string) : string :=
  "{" +:+ join item_separator
            (map (fun kv => encode_str (fst kv) +:+ key_separator +:+ encode_str (snd kv)) obj)
      +:+ "}".

End Json.

Definition convertToJson (code : string) : string :=
  let mermaid_lines := map strip (splitlines (strip code)) in
  let joined_mermaid := join NL mermaid_lines in
  let json_output := Json.dumps [("mermaid_syntax", joined_mermaid)] "," ":" in
  json_output.

(** ** The endpoint [/api/fetch_req_diagramType] *)

Record DiagramRequest : Type := { requirement : string; diagram_type : string }.

(** The dict the handler returns on success, one field per key:
    ["status"], ["requirement"], ["diagram_type"], ["Detected Diagram Type"],
    ["Clean Mermaid Code"], ["Json Mermaid Code"]. *)
Record Response : Type := {
  status : string;
  echoed_requirement : string;
  echoed_diagram_type : string;
  Detected_Diagram_Type : string;
  Clean_Mermaid_Code : string;
  Json_Mermaid_Code : string
}.

(** What a request meets outside the program: reading
    [prompt_Gemini_Test.txt], and [model.generate_content(prompt).text]. *)
Record Env : Type := {
  read_prompt_file : result string;
  generate_content : string -> result string
}.

Definition MERMAID_TYPE_MAP : gmap string string :=
  <["classDiagram" := "Class"]> (
  <["classdiagram" := "Class"]> (
  <["class" := "Class"]> (
  <["sequenceDiagram" := "Sequence"]> (
  <["sequencediagram" := "Sequence"]> (
  <["sequence" := "Sequence"]> (
  <["graph" := "Flowchart"]> (
  <["flowchart" := "Flowchart"]> ∅))))))).

Definition is_ascii_letter (c : ascii) : bool :=
  let n := nat_of_ascii c in
  (((65 <=? n) && (n <=? 90)) || ((97 <=? n) && (n <=? 122)))%nat.

Fixpoint all_letters (s : string) : bool :=
  match s with
  | EmptyString => true
  | String c s' => is_ascii_letter c && all_letters s'
  end.

Fixpoint drop_letters (s : string) : string :=
  match s with
  | EmptyString => EmptyString
  | String c s' => if is_ascii_letter c then drop_letters s' else s
  end.

Definition drop_newline (s : string) : string :=
  match s with
  | String c s' => if Ascii.eqb c LF then s' else s
  | EmptyString => EmptyString
  end.

(** [re.sub(r'^```[a-zA-Z]*\n?', '', s)]: without [re.MULTILINE] the
    pattern can match at the start of [s] only; the greedy letter run is
    followed by an optional newline, so nothing is given back. *)
Definition sub_opening_fence (s : string) : string :=
  match s with
  | String "`" (String "`" (String "`" r)) => drop_newline (drop_letters r)
  | _ => s
  end.

(** Whether the pattern [\n?```$] matches at the start of [s], and what of
    [s] is left behind it: [$] holds at the end of the text and before a
    newline that ends the text. *)
Definition closing_fence_here (s : string) : option string :=
  if String.eqb s "```" || String.eqb s (NL +:+ "```") then Some EmptyString
  else if String.eqb s ("```" +:+ NL) || String.eqb s (NL +:+ "```" +:+ NL) then Some NL
  else None.

(** [re.sub(r'\n?```$', '', s)]: the leftmost match is removed; nothing
    behind it can match again. *)
Fixpoint sub_closing_fence (s : string) : string :=
  match closing_fence_here s with
  | Some rest => rest
  | None =>
      match s with
      | EmptyString => EmptyString
      | String c s' => String c (sub_closing_fence s')
      end
  end.

Definition sanitize_candidate (candidate : string) : string :=
  let cleaned := strip candidate in
  let cleaned := sub_opening_fence cleaned in
  let cleaned := sub_closing_fence cleaned in
  strip cleaned.

(** Lines 172-178: the look-up of the requested kind. *)
Definition resolve_diagram_type (diagram_type : string) : result string :=
  let normalized_type := strip diagram_type in
  let lookup_key := lower normalized_type in
  match MERMAID_TYPE_MAP !! lookup_key with
  | None => Raise (HTTPException 400 ("Unsupported diagram type: " +:+ diagram_type))
  | Some gemini_diagram_type => Return gemini_diagram_type
  end.

(** Lines 182-183: the prompt is the content of the prompt file;
    [requirement] and [gemini_diagram_type] are in scope and unused. *)
Definition full_prompt (env : Env) (requirement gemini_diagram_type : string)
  : result string :=
  read_prompt_file env.

(** Lines 198-200: the check of the first line of the model's text. *)
Definition validate_first_line (mermaid_code : string) : result string :=
  let* first := getitem0 (splitlines mermaid_code) in
  let first_line := lower (strip first) in
  if negb (startswith_any first_line headers) then
    Raise (HTTPException 502 "Gemini API did not return valid Mermaid syntax")
  else Return mermaid_code.

(** Lines 188-202, the body of the inner [try]. *)
Definition generate_and_validate (env : Env) (prompt : string) : result string :=
  let* text := generate_content env prompt in
  if String.eqb text EmptyString then
    Raise (HTTPException 502 "Gemini API returned empty response")
  else
    (* mermaid_code = sanitize_candidate(response.text) is commented out *)
    let mermaid_code := text in
    validate_first_line mermaid_code.

Definition generate_mermaid_with_gemini (env : Env)
    (requirement diagram_type : string) : result string :=
  let* gemini_diagram_type := resolve_diagram_type diagram_type in
  let* prompt := full_prompt env requirement gemini_diagram_type in
  try_except (generate_and_validate env prompt)
    (fun exc => Raise (HTTPException 502 ("Gemini API error: " +:+ str exc))).

(** Lines 92-94: the request's two inputs go into the module-level dict. *)
Definition store_inputs (input : DiagramRequest) (fetched_data : gmap string string)
  : gmap string string :=
  <["diagram_type" := diagram_type input]>
    (<["requirement" := requirement input]> fetched_data).

(** Lines 212-234, the body of the outer [try]: from here on the handler
    reads [fetched_data] and never [input]. *)
Definition receive_diagram_try (env : Env) (fetched_data : gmap string string)
  : result Response :=
  let* arg_requirement := getitem fetched_data "requirement" in
  let* arg_diagram_type := getitem fetched_data "diagram_type" in
  let* mermaid_code := generate_mermaid_with_gemini env arg_requirement arg_diagram_type in
  let mermaid := mermaid_code in
  let* result := clean_mermaid_code mermaid in
  let jsonRes := convertToJson (code result) in
  let* out_requirement := getitem fetched_data "requirement" in
  let* out_diagram_type := getitem fetched_data "diagram_type" in
  Return {| status := "success";
            echoed_requirement := out_requirement;
            echoed_diagram_type := out_diagram_type;
            Detected_Diagram_Type := type result;
            Clean_Mermaid_Code := code result;
            Json_Mermaid_Code := jsonRes |}.

(** Lines 238-245: the three [except] clauses. *)
Definition except_clauses (exc : exn) : result Response :=
  match exc with
  | HTTPException status_code detail => Raise (HTTPException status_code detail)
  | ValueError msg => Raise (HTTPException 502 (str (ValueError msg)))
  | OtherException _ => Raise (HTTPException 500 "Unexpected error occurred")
  end.

(** The handler, with the module-level dict [fetched_data] passed in and
    out. *)
Definition receive_diagram (env : Env) (input : DiagramRequest)
    (fetched_data : gmap string string) : result Response * gmap string string :=
  let fetched_data := store_inputs input fetched_data in
  (try_except (receive_diagram_try env fetched_data) except_clauses, fetched_data).

(** The status line FastAPI answers with: 200 for a returned value, the
    status of an [HTTPException], 500 for any other exception. *)
Definition http_status {A : Type} (r : result A) : nat :=
  match r with
  | Return _ => 200
  | Raise (HTTPException status_code _) => status_code
  | Raise _ => 500
  end.

(** The [detail] of an error response. *)
Definition http_detail {A : Type} (r : result A) : option string :=
  match r with
  | Raise (HTTPException _ detail) => Some detail
  | _ => None
  end.

Definition stub_env (text : string) : Env :=
  {| read_prompt_file := Return "PROMPT"; generate_content := fun _ => Return text |}.


(** ** The endpoint [/diagram] of [python_fastapi/fetch_req_diagramType.py]

    The earlier variant: no look-up of the kind, no model call, a fixed
    diagram text, and one [except] clause that prints and returns nothing. *)

Module PythonFastapi.

Definition mermaid : string :=
  NL +:+ "        graph TD"
  +:+ NL +:+ "        A[Vehicle in motion]->B{Seatbelt unbuckled?}"
  +:+ NL +:+ "        B -- No->F[No action]"
  +:+ NL +:+ "        B --Yes->C[Start 3s timer]"
  +:+ NL +:+ "        C -> D{Alert within 3 seconds?}"
  +:+ NL +:+ "        D -- Yes--E[Alert driver]"
  +:+ NL +:+ "        D -- No --G[Timeout / Failed]"
  +:+ NL +:+ "        ".

Definition receive_diagram_try (fetched_data : gmap string string)
  : result Response :=
  let* result := clean_mermaid_code mermaid in
  let jsonRes := convertToJson mermaid in
  let* out_requirement := getitem fetched_data "requirement" in
  let* out_diagram_type := getitem fetched_data "diagram_type" in
  Return {| status := "success";
            echoed_requirement := out_requirement;
            echoed_diagram_type := out_diagram_type;
            Detected_Diagram_Type := type result;
            Clean_Mermaid_Code := code result;
            Json_Mermaid_Code := jsonRes |}.

(** [None] is Python's [None]: the [except] clause prints the error and
    falls off the end of the function. *)
Definition receive_diagram (input : DiagramRequest)
    (fetched_data : gmap string string)
  : result (option Response) * gmap string string :=
  let fetched_data := store_inputs input fetched_data in
  (try_except (let* r := receive_diagram_try fetched_data in Return (Some r))
              (fun e => Return None),
   fetched_data).

End PythonFastapi.

(** ** Decoding JSON

    Python's [json.loads], for the objects [Json.dumps] writes: an object
    whose members are strings.  A [\uXXXX] escape above U+00FF has no
    character in this model and is refused. *)

Module JsonDecode.

Import Json.

Definition is_json_ws (c : ascii) : bool :=
  let n := nat_of_ascii c in
  ((n =? 32) || (n =? 9) || (n =? 10) || (n =? 13))%nat.

Fixpoint skip_ws (s : string) : string :=
  match s with
  | String c s' => if is_json_ws c then skip_ws s' else s
  | EmptyString => EmptyString
  end.

Definition hex_value (c : ascii) : option nat :=
  let n := nat_of_ascii c in
  if ((48 <=? n) && (n <=? 57))%nat then Some (n - 48)
  else if ((97 <=? n) && (n <=? 102))%nat then Some (n - 87)
  else if ((65 <=? n) && (n <=? 70))%nat then Some (n - 55)
  else None.

Definition hex4 (a b c d : ascii) : option nat :=
  match hex_value a, hex_value b, hex_value c, hex_value d with
  | Some x, Some y, Some z, Some w => Some (((x * 16 + y) * 16 + z) * 16 + w)
  | _, _, _, _ => None
  end.

(** The character a one-letter escape stands for. *)
Definition unescape (e : ascii) : option ascii :=
  if Ascii.eqb e DQ then Some DQ
  else if Ascii.eqb e BS then Some BS
  else if Ascii.eqb e "/" then Some "/"%char
  else if Ascii.eqb e "b" then Some "008"%char
  else if Ascii.eqb e "f" then Some "012"%char
  else if Ascii.eqb e "n" then Some "010"%char
  else if Ascii.eqb e "r" then Some "013"%char
  else if Ascii.eqb e "t" then Some "009"%char
  else None.

Definition cons_char (c : ascii) (r : option (string * string))
  : option (string * string) :=
  match r with
  | Some (v, rest) => Some (String c v, rest)
  | None => None
  end.

(** The text of a string literal from behind its opening quote up to its
    closing quote, and what follows the literal. *)
Fixpoint scanstring (s : string) : option (string * string) :=
  match s with
  | EmptyString => None
  | String c s' =>
      if Ascii.eqb c DQ then Some (EmptyString, s')
      else if Ascii.eqb c BS then
        match s' with
        | String e s'' =>
            if Ascii.eqb e "u" then
              match s'' with
              | String h1 (String h2 (String h3 (String h4 r))) =>
                  match hex4 h1 h2 h3 h4 with
                  | Some n =>
                      if (n <? 256)%nat then cons_char (ascii_of_nat n) (scanstring r)
                      else None
                  | None => None
                  end
              | _ => None
              end
            else
              match unescape e with
              | Some ch => cons_char ch (scanstring s'')
              | None => None
              end
        | EmptyString => None
        end
      else if (nat_of_ascii c <? 32)%nat then None
      else cons_char c (scanstring s')
  end.

Definition parse_string (s : string) : option (string * string) :=
  match s with
  | String c s' => if Ascii.eqb c DQ then scanstring s' else None
  | EmptyString => None
  end.

Definition expect (c : ascii) (s : string) : option string :=
  match s with
  | String c' s' => if Ascii.eqb c c' then Some s' else None
  | EmptyString => None
  end.

(** The members of an object from behind a member's leading white space
    up to the closing brace. *)
Fixpoint parse_members (fuel : nat) (s : string)
  : option (list (string * string) * string) :=
  match fuel with
  | O => None
  | S fuel' =>
      match parse_string s with
      | None => None
      | Some (k, s1) =>
          match expect ":" (skip_ws s1) with
          | None => None
          | Some s2 =>
              match parse_string (skip_ws s2) with
              | None => None
              | Some (v, s3) =>
                  match skip_ws s3 with
                  | String "}" rest => Some ([(k, v)], rest)
                  | String "," s4 =>
                      match parse_members fuel' (skip_ws s4) with
                      | Some (kvs, rest) => Some ((k, v) :: kvs, rest)
                      | None => None
                      end
                  | _ => None
                  end
              end
          end
      end
  end.

(** [json.loads(s)] for a flat object of strings. *)
Definition loads (s : string) : option (list (string * string)) :=
  match expect "{" (skip_ws s) with
  | None => None
  | Some s1 =>
      match skip_ws s1 with
      | String "}" rest =>
          if String.eqb (skip_ws rest) EmptyString then Some [] else None
      | s2 =>
          match parse_members (String.length s2) s2 with
          | Some (kvs, rest) =>
              if String.eqb (skip_ws rest) EmptyString then Some kvs else None
          | None => None
          end
      end
  end.

(** [obj[k]] on the decoded object (the last member of a name wins). *)
Fixpoint member (k : string) (obj : list (string * string)) : option string :=
  match obj with
  | [] => None
  | (k', v) :: obj' =>
      match member k obj' with
      | Some v' => Some v'
      | None => if String.eqb k k' then Some v else None
      end
  end.

(** [json.loads(s)["mermaid_syntax"]] *)
Definition decode_mermaid_syntax (s : string) : option string :=
  match loads s with
  | Some obj => member "mermaid_syntax" obj
  | None => None
  end.

End JsonDecode.

(** ** The specification's wording, for comparison with the code *)

Module Spec.

(** The first line that is not blank, a line being blank when all its
    characters are white space. *)
Definition first_nonblank_line (lines : list string) : option string :=
  List.find (fun l => negb (all_space l)) lines.

(** Section 4.4: the first non-blank line, trimmed and lower-cased,
    starts with one of the four headers. *)
Definition validator_accepts (text : string) : bool :=
  match first_nonblank_line (splitlines text) with
  | Some l => startswith_any (lower (strip l)) headers
  | None => false
  end.

(** Section 4.5 (b): the kind a header stands for. *)
Definition kind_of_header (h : string) : string :=
  if String.eqb h "graph" || String.eqb h "flowchart" then "flowchart"
  else if String.eqb h "sequencediagram" then "sequenceDiagram"
  else "classDiagram".

(** Section 3: the invariant of a [DiagramArtifact], for a given way
    [lines] of cutting the code into lines. *)
Definition artifact_invariant (lines : string -> list string) (a : Artifact) : Prop :=
  exists l h,
    first_nonblank_line (lines (code a)) = Some l
    /\ In h headers
    /\ startswith (lower (strip l)) h = true
    /\ type a = kind_of_header h.

(** Section 4.6: split into lines, trim each line, rejoin with a single
    newline. *)
Definition normalize (x : string) : string :=
  join NL (map strip (splitlines x)).

End Spec.

(** ** Two requests on one event loop

    [fetched_data] is one dict for all requests.  The handler is a
    coroutine; its single [await] is on [generate_mermaid_with_gemini],
    whose body has no [await] ([model.generate_content] is a blocking call),
    so an invocation is never suspended and the event loop runs invocations
    one after the other ([serve]).  [interleave] is the finer reading in
    which the stores of lines 92-94 and the [try] statement of an invocation
    are scheduled separately; its schedules include those of the event loop
    and others the program never runs, so it serves for statements over
    every schedule. *)

Module EventLoop.

Record Task : Type := { env : Env; input : DiagramRequest }.

Fixpoint serve (tasks : list Task) (fetched_data : gmap string string)
  : list (result Response) * gmap string string :=
  match tasks with
  | [] => ([], fetched_data)
  | t :: ts =>
      let (r, fetched_data) := receive_diagram (env t) (input t) fetched_data in
      let (rs, fetched_data) := serve ts fetched_data in
      (r :: rs, fetched_data)
  end.

Inductive thread : Type :=
| AtStores
| AtTry
| Finished (r : result Response).

Definition step_thread (t : Task) (th : thread) (fetched_data : gmap string string)
  : thread * gmap string string :=
  match th with
  | AtStores => (AtTry, store_inputs (input t) fetched_data)
  | AtTry =>
      (Finished (try_except (receive_diagram_try (env t) fetched_data) except_clauses),
       fetched_data)
  | Finished r => (Finished r, fetched_data)
  end.

Record state : Type := {
  first : thread;
  second : thread;
  shared : gmap string string
}.

(** One step of the invocation the scheduler picks: [true] for the
    first, [false] for the second. *)
Definition step (tA tB : Task) (st : state) (pick : bool) : state :=
  if pick then
    let (th, fd) := step_thread tA (first st) (shared st) in
    {| first := th; second := second st; shared := fd |}
  else
    let (th, fd) := step_thread tB (second st) (shared st) in
    {| first := first st; second := th; shared := fd |}.

Definition interleave (schedule : list bool) (tA tB : Task)
    (fetched_data : gmap string string) : state :=
  fold_left (step tA tB) schedule
    {| first := AtStores; second := AtStores; shared := fetched_data |}.

(** A finished invocation answers with the inputs of request [input]. *)
Definition echoes (th : thread) (input : DiagramRequest) : Prop :=
  forall resp, th = Finished (Return resp) ->
    echoed_requirement resp = requirement input
    /\ echoed_diagram_type resp = diagram_type input.

End EventLoop.

(** The outcome [r] of a request on [/api/fetch_req_diagramType], stage by
    stage: the look-up, the prompt file, the model call, the first-line
    check. *)
Definition taxonomy_of (env : Env) (input : DiagramRequest) (r : result Response) : Prop :=
  match resolve_diagram_type (diagram_type input) with
  | Raise _ =>
      r = Raise (HTTPException 400 ("Unsupported diagram type: " +:+ diagram_type input))
  | Return _ =>
      match read_prompt_file env with
      | Raise (HTTPException status_code detail) =>
          r = Raise (HTTPException status_code detail)
      | Raise (ValueError msg) => r = Raise (HTTPException 502 msg)
      | Raise (OtherException _) =>
          r = Raise (HTTPException 500 "Unexpected error occurred")
      | Return prompt =>
          match generate_content env prompt with
          | Raise e => r = Raise (HTTPException 502 ("Gemini API error: " +:+ str e))
          | Return text =>
              if String.eqb text EmptyString then
                r = Raise (HTTPException 502
                             "Gemini API error: 502: Gemini API returned empty response")
              else if header_test (first_line (splitlines text)) then
                exists ty,
                  r = Return {| status := "success";
                                echoed_requirement := requirement input;
                                echoed_diagram_type := diagram_type input;
                                Detected_Diagram_Type := ty;
                                Clean_Mermaid_Code := strip text;
                                Json_Mermaid_Code := convertToJson (strip text) |}
              else
                r = Raise (HTTPException 502
                             "Gemini API error: 502: Gemini API did not return valid Mermaid syntax")
          end
      end
  end.

(** ** Further notions used to state what the code does *)

(** [s.endswith(suffix)] *)
Fixpoint endswith (s suffix : string) : bool :=
  String.eqb s suffix
  || match s with
     | EmptyString => false
     | String _ s' => endswith s' suffix
     end.

(** A character of U+0020..U+007E. *)
Definition is_printable (c : ascii) : bool :=
  let n := nat_of_ascii c in ((32 <=? n) && (n <=? 126))%nat.

Fixpoint all_printable (s : string) : bool :=
  match s with
  | EmptyString => true
  | String c s' => is_printable c && all_printable s'
  end.

(** No character of the text is a line boundary of [splitlines]. *)
Fixpoint no_linebreak (s : string) : bool :=
  match s with
  | EmptyString => true
  | String c s' => negb (is_linebreak c) && no_linebreak s'
  end.

(** What a response says about the diagram, without the echoed inputs. *)
Definition payload (r : result Response) : result (string * string * string) :=
  let* resp := r in
  Return (Detected_Diagram_Type resp, Clean_Mermaid_Code resp, Json_Mermaid_Code resp).

(** The text the serializer encodes. *)
Definition joined_mermaid (code : string) : string :=
  join NL (map strip (splitlines (strip code))).

(** What an invocation for task [t] answers when it finds the inputs of
    request [x] in [fetched_data]. *)
Definition answer_with (t : EventLoop.Task) (x : DiagramRequest) : result Response :=
  fst (receive_diagram (EventLoop.env t) x ∅).

(** [fetched_data] holds the two inputs of request [x]. *)
Definition holds_inputs (fetched_data : gmap string string) (x : DiagramRequest) : Prop :=
  getitem fetched_data "requirement" = Return (requirement x)
  /\ getitem fetched_data "diagram_type" = Return (diagram_type x).

(** A finished invocation for task [t] has answered with the inputs of one
    of the two requests. *)
Definition answered_from (t : EventLoop.Task) (xA xB : DiagramRequest)
    (th : EventLoop.thread) : Prop :=
  forall r, th = EventLoop.Finished r -> r = answer_with t xA \/ r = answer_with t xB.

(** What holds of two invocations after any number of steps. *)
Definition interleave_invariant (tA tB : EventLoop.Task) (st : EventLoop.state) : Prop :=
  ((EventLoop.first st = EventLoop.AtStores /\ EventLoop.second st = EventLoop.AtStores)
   \/ holds_inputs (EventLoop.shared st) (EventLoop.input tA)
   \/ holds_inputs (EventLoop.shared st) (EventLoop.input tB))
  /\ answered_from tA (EventLoop.input tA) (EventLoop.input tB) (EventLoop.first st)
  /\ answered_from tB (EventLoop.input tA) (EventLoop.input tB) (EventLoop.second st).

(** ** The endpoint [/analyze] of [user_analysis/main.py] *)

Module UserAnalysis.

(** An uploaded file: its name, its declared media type ([None] when the
    part has no [Content-Type]) and its bytes, one character per byte. *)
Record UploadFile : Type := {
  filename : string;
  content_type : option string;
  content : string
}.

(** The libraries the handler calls: [bytes.decode('utf-8',
    errors='ignore')], which never raises; [PyPDF2.PdfReader(...).pages]
    with the outcome of [extract_text()] on each page ([None] for Python's
    [None]); the texts of [docx.Document(...).paragraphs]; and
    [pytesseract.image_to_string(Image.open(...))]. *)
Record Extractors : Type := {
  decode_utf8_ignore : string -> string;
  pdf_pages : string -> result (list (result (option string)));
  docx_paragraphs : string -> result (list string);
  image_to_string : string -> result string
}.

(** [s.endswith((x1, ..., xn))] *)
Definition endswith_any (s : string) (suffixes : list string) : bool :=
  existsb (endswith s) suffixes.

(** [mime_type == m], false for [None]. *)
Definition mime_is (mime_type : option string) (m : string) : bool :=
  match mime_type with
  | Some x => String.eqb x m
  | None => false
  end.

(** The loop over the pages: [extracted_text += page.extract_text() or ""]. *)
Fixpoint extract_pages (pages : list (result (option string))) (extracted_text : string)
  : result string :=
  match pages with
  | [] => Return extracted_text
  | page :: pages' =>
      let* t := page in
      extract_pages pages'
        (extracted_text +:+ match t with Some s => s | None => EmptyString end)
  end.

(** [try: ...  except Exception as e: extracted_text = None] *)
Definition or_none (c : result string) : option string :=
  match c with
  | Return s => Some s
  | Raise _ => None
  end.

Definition docx_mime : string :=
  "application/vnd.openxmlformats-officedocument.wordprocessingml.document".

Definition is_text (name : string) (mime_type : option string) : bool :=
  mime_is mime_type "text/plain" || mime_is mime_type "text/markdown"
  || endswith_any name [".txt"; ".md"].

Definition is_pdf (name : string) (mime_type : option string) : bool :=
  mime_is mime_type "application/pdf" || endswith name ".pdf".

Definition is_docx (name : string) (mime_type : option string) : bool :=
  mime_is mime_type docx_mime || endswith name ".docx".

(** Lines 32-66: the branch on the media type and the lower-cased name.
    In the last test [mime_type.startswith] is called first, which raises
    [AttributeError] on [None]. *)
Definition extract (ex : Extractors) (file : UploadFile) (file_content : string)
  : result (option string) :=
  let name := lower (filename file) in
  let mime_type := content_type file in
  if is_text name mime_type then
    Return (Some (decode_utf8_ignore ex file_content))
  else if is_pdf name mime_type then
    Return (or_none (let* pages := pdf_pages ex file_content in
                     extract_pages pages EmptyString))
  else if is_docx name mime_type then
    Return (or_none (let* paragraphs := docx_paragraphs ex file_content in
                     Return (join NL paragraphs)))
  else
    match mime_type with
    | None => Raise (OtherException "'NoneType' object has no attribute 'startswith'")
    | Some m =>
        if startswith m "image/" || endswith_any name [".png"; ".jpg"; ".jpeg"] then
          Return (or_none (image_to_string ex file_content))
        else Return None
    end.

(** The dict the handler answers with. *)
Record Analysis : Type := {
  user_input : string;
  file_uploaded : bool;
  file_name : option string;
  file_size : nat;
  extracted_text : option string;
  analysis : string
}.

Definition analyze_input (ex : Extractors) (user_input : string)
    (file : option UploadFile) : result Analysis :=
  let* extracted :=
    match file with
    | Some f => extract ex f (content f)
    | None => Return None
    end in
  let analysis_result := "MCP AI analysis result would go here" in
  Return {| user_input := user_input;
            file_uploaded := match file with Some _ => true | None => false end;
            file_name := match file with Some f => Some (filename f) | None => None end;
            file_size := match file with Some f => String.length (content f) | None => 0 end;
            extracted_text := extracted;
            analysis := analysis_result |}.

End UserAnalysis.

(** Libraries that fail on every input, for examples. *)
Definition failing_extractors : UserAnalysis.Extractors :=
  {| UserAnalysis.decode_utf8_ignore := fun b => b;
     UserAnalysis.pdf_pages := fun _ => Raise (OtherException "EOF marker not found");
     UserAnalysis.docx_paragraphs := fun _ => Raise (OtherException "File is not a zip file");
     UserAnalysis.image_to_string := fun _ => Raise (OtherException "cannot identify image file") |}.

(** Libraries for an example: a PDF of three pages, the second without
    text. *)
Definition three_page_pdf : UserAnalysis.Extractors :=
  {| UserAnalysis.decode_utf8_ignore := fun b => b;
     UserAnalysis.pdf_pages :=
       fun _ => Return [Return (Some "Req 1. "); Return None; Return (Some "Req 2.")];
     UserAnalysis.docx_paragraphs := fun _ => Return [];
     UserAnalysis.image_to_string := fun _ => Return EmptyString |}.

(** * Properties *)

(** ** Characters *)

Ltac each_char c := destruct c as [[] [] [] [] [] [] [] []].

Lemma isspace_lower_char c : isspace (lower_char c) = isspace c.
Proof. each_char c; reflexivity. Qed.

Lemma is_linebreak_lower_char c : is_linebreak (lower_char c) = is_linebreak c.
Proof. each_char c; reflexivity. Qed.

Lemma lower_char_eqb_LF c : Ascii.eqb (lower_char c) LF = Ascii.eqb c LF.
Proof. each_char c; reflexivity. Qed.

Lemma lower_char_not_capital_D c : lower_char c <> "D"%char.
Proof. each_char c; discriminate. Qed.

Lemma LF_is_linebreak c : Ascii.eqb c LF = true -> is_linebreak c = true.
Proof. intros H; apply Ascii.eqb_eq in H; subst; reflexivity. Qed.

(** ** [strip] *)

Lemma append_nil_r s : s +:+ EmptyString = s.
Proof. induction s; simpl; congruence. Qed.

Lemma append_assoc s1 s2 s3 : (s1 +:+ s2) +:+ s3 = s1 +:+ (s2 +:+ s3).
Proof. induction s1; simpl; congruence. Qed.

Lemma all_space_app s1 s2 :
  all_space (s1 +:+ s2) = all_space s1 && all_space s2.
Proof. induction s1; simpl; [reflexivity|]. rewrite IHs1. apply andb_assoc. Qed.

Lemma lstrip_decompose s :
  exists ws, s = ws +:+ lstrip s /\ all_space ws = true.
Proof.
  induction s as [|c s IH]; simpl.
  - exists EmptyString. split; reflexivity.
  - destruct (isspace c) eqn:Hc.
    + destruct IH as (ws & Hs & Hws). exists (String c ws). simpl.
      rewrite Hc, Hws. split; [congruence | reflexivity].
    + exists EmptyString. split; reflexivity.
Qed.

Lemma lstrip_starts s : starts_nonspace (lstrip s) = true.
Proof.
  induction s as [|c s IH]; simpl; [reflexivity|].
  destruct (isspace c) eqn:Hc; [exact IH|]. simpl. rewrite Hc. reflexivity.
Qed.

Lemma rstrip_decompose s :
  exists ws, s = rstrip s +:+ ws /\ all_space ws = true.
Proof.
  induction s as [|c s IH]; simpl.
  - exists EmptyString. split; reflexivity.
  - destruct IH as (ws & Hs & Hws).
    destruct (rstrip s) as [|d r] eqn:Hr.
    + simpl in Hs. destruct (isspace c) eqn:Hc.
      * exists (String c ws). simpl. rewrite Hc, Hws. split; [congruence | reflexivity].
      * exists ws. simpl. split; [congruence | assumption].
    + exists ws. simpl. split; [simpl in Hs; congruence | assumption].
Qed.

Lemma rstrip_ends s : ends_nonspace (rstrip s) = true.
Proof.
  induction s as [|c s IH]; simpl; [reflexivity|].
  destruct (rstrip s) as [|d r] eqn:Hr.
  - destruct (isspace c) eqn:Hc; simpl; [reflexivity | rewrite Hc; reflexivity].
  - exact IH.
Qed.

Lemma rstrip_cons_nonspace c s :
  isspace c = false -> exists r, rstrip (String c s) = String c r.
Proof.
  intros Hc. simpl. destruct (rstrip s); [rewrite Hc|]; eauto.
Qed.

Lemma rstrip_starts s : starts_nonspace s = true -> starts_nonspace (rstrip s) = true.
Proof.
  destruct s as [|c s]; [reflexivity|]. simpl starts_nonspace at 1. intros Hc.
  apply negb_true_iff in Hc. destruct (rstrip_cons_nonspace c s Hc) as [r ->].
  simpl. rewrite Hc. reflexivity.
Qed.

Lemma strip_decompose s :
  exists ws1 ws2,
    s = ws1 +:+ strip s +:+ ws2
    /\ all_space ws1 = true /\ all_space ws2 = true
    /\ starts_nonspace (strip s) = true /\ ends_nonspace (strip s) = true.
Proof.
  destruct (lstrip_decompose s) as (ws1 & H1 & Hw1).
  destruct (rstrip_decompose (lstrip s)) as (ws2 & H2 & Hw2).
  exists ws1, ws2. unfold strip. repeat split; try assumption.
  - rewrite <- H2. exact H1.
  - apply rstrip_starts, lstrip_starts.
  - apply rstrip_ends.
Qed.

Lemma rstrip_all_space s : all_space s = true -> rstrip s = EmptyString.
Proof.
  induction s as [|c s IH]; simpl; [reflexivity|].
  intros H. apply andb_true_iff in H as [Hc Hs]. rewrite (IH Hs), Hc. reflexivity.
Qed.

Lemma lstrip_all_space s : all_space s = true -> lstrip s = EmptyString.
Proof.
  induction s as [|c s IH]; simpl; [reflexivity|].
  intros H. apply andb_true_iff in H as [Hc Hs]. rewrite Hc. auto.
Qed.

Lemma strip_all_space s : all_space s = true -> strip s = EmptyString.
Proof. intros H. unfold strip. rewrite (lstrip_all_space s H). reflexivity. Qed.

Lemma lstrip_id s : starts_nonspace s = true -> lstrip s = s.
Proof.
  destruct s as [|c s]; simpl; [reflexivity|]. intros H.
  apply negb_true_iff in H. rewrite H. reflexivity.
Qed.

Lemma rstrip_id s : ends_nonspace s = true -> rstrip s = s.
Proof.
  induction s as [|c s IH]; simpl; [reflexivity|].
  destruct s as [|d s].
  - simpl. intros H. apply negb_true_iff in H. rewrite H. reflexivity.
  - intros H. rewrite (IH H). destruct (String d s) eqn:E; [discriminate|].
    reflexivity.
Qed.

Lemma strip_idempotent s : strip (strip s) = strip s.
Proof.
  unfold strip at 1.
  rewrite lstrip_id by (apply rstrip_starts, lstrip_starts).
  apply rstrip_id. apply rstrip_ends.
Qed.

(** ** Headers and first lines *)

Lemma linebreak_is_space c : is_linebreak c = true -> isspace c = true.
Proof. each_char c; simpl; intros H; try reflexivity; discriminate H. Qed.

Lemma startswith_nil_r s : startswith s EmptyString = true.
Proof. destruct s; reflexivity. Qed.

Lemma startswith_cons c s a h :
  startswith (String c s) (String a h) = if Ascii.eqb a c then startswith s h else false.
Proof. reflexivity. Qed.

Lemma split_cons sep s : exists l ls, split sep s = l :: ls.
Proof.
  induction s as [|c s (l & ls & IH)]; simpl; eauto.
  destruct (Ascii.eqb c sep); eauto. rewrite IH. eauto.
Qed.

Lemma first_line_split_cons c s :
  Ascii.eqb c LF = false ->
  first_line (split LF (String c s)) = String c (first_line (split LF s)).
Proof.
  intros H. simpl. rewrite H. destruct (split_cons LF s) as (l & ls & ->). reflexivity.
Qed.

Lemma first_line_splitlines_cons c s :
  is_linebreak c = false ->
  first_line (splitlines (String c s)) = String c (first_line (splitlines s)).
Proof.
  intros H. simpl. rewrite H. destruct (splitlines s); reflexivity.
Qed.

Lemma first_line_splitlines_break c s :
  is_linebreak c = true -> first_line (splitlines (String c s)) = EmptyString.
Proof.
  intros H. simpl. rewrite H. destruct s; [reflexivity|].
  destruct (_ && _); reflexivity.
Qed.

(** A header has no white space, so trimming the right end of a line does
    not change whether the line starts with it. *)
Lemma startswith_lower_rstrip l : forall h,
  no_space h = true ->
  startswith (lower (rstrip l)) h = startswith (lower l) h.
Proof.
  induction l as [|c l IH]; intros h Hh; [reflexivity|].
  destruct h as [|a h]; [rewrite !startswith_nil_r; reflexivity|].
  simpl in Hh. apply andb_true_iff in Hh as [Ha Hh]. apply negb_true_iff in Ha.
  specialize (IH h Hh). simpl rstrip.
  destruct (rstrip l) as [|d r] eqn:Hr.
  - destruct (isspace c) eqn:Hc.
    + simpl. destruct (Ascii.eqb a (lower_char c)) eqn:E; [|reflexivity].
      apply Ascii.eqb_eq in E. subst a. rewrite isspace_lower_char in Ha. congruence.
    + simpl lower. rewrite !startswith_cons. simpl lower in IH. rewrite IH. reflexivity.
  - simpl lower. rewrite !startswith_cons. rewrite <- IH. reflexivity.
Qed.

Lemma startswith_lower_split s : forall h,
  no_space h = true ->
  startswith (lower (first_line (split LF s))) h = startswith (lower s) h.
Proof.
  induction s as [|c s IH]; intros h Hh; [reflexivity|].
  destruct h as [|a h]; [rewrite !startswith_nil_r; reflexivity|].
  simpl in Hh. apply andb_true_iff in Hh as [Ha Hh]. apply negb_true_iff in Ha.
  destruct (Ascii.eqb c LF) eqn:Hc.
  - simpl split. rewrite Hc. simpl.
    destruct (Ascii.eqb a (lower_char c)) eqn:E; [|reflexivity].
    apply Ascii.eqb_eq in E. subst a.
    rewrite isspace_lower_char in Ha.
    apply LF_is_linebreak, linebreak_is_space in Hc. congruence.
  - rewrite first_line_split_cons by assumption. simpl lower.
    rewrite !startswith_cons, IH by assumption. reflexivity.
Qed.

Lemma startswith_lower_splitlines s : forall h,
  no_space h = true ->
  startswith (lower (first_line (splitlines s))) h = startswith (lower s) h.
Proof.
  induction s as [|c s IH]; intros h Hh; [reflexivity|].
  destruct h as [|a h]; [rewrite !startswith_nil_r; reflexivity|].
  simpl in Hh. apply andb_true_iff in Hh as [Ha Hh]. apply negb_true_iff in Ha.
  destruct (is_linebreak c) eqn:Hc.
  - rewrite first_line_splitlines_break by assumption. simpl.
    destruct (Ascii.eqb a (lower_char c)) eqn:E; [|reflexivity].
    apply Ascii.eqb_eq in E. subst a.
    rewrite isspace_lower_char in Ha. apply linebreak_is_space in Hc. congruence.
  - rewrite first_line_splitlines_cons by assumption. simpl lower.
    rewrite !startswith_cons, IH by assumption. reflexivity.
Qed.

Lemma starts_nonspace_first_line (lines : string -> list string) s :
  (forall c r, isspace c = false ->
     first_line (lines (String c r)) = String c (first_line (lines r))) ->
  first_line (lines EmptyString) = EmptyString ->
  starts_nonspace s = true -> starts_nonspace (first_line (lines s)) = true.
Proof.
  intros Hcons Hnil. destruct s as [|c s]; simpl.
  - rewrite Hnil. reflexivity.
  - intros H. rewrite Hcons by (apply negb_true_iff; exact H). exact H.
Qed.

Lemma split_starts s :
  starts_nonspace s = true -> starts_nonspace (first_line (split LF s)) = true.
Proof.
  apply starts_nonspace_first_line; [|reflexivity].
  intros c r Hc. apply first_line_split_cons.
  destruct (Ascii.eqb c LF) eqn:E; [|reflexivity].
  apply LF_is_linebreak, linebreak_is_space in E. congruence.
Qed.

Lemma splitlines_starts s :
  starts_nonspace s = true -> starts_nonspace (first_line (splitlines s)) = true.
Proof.
  apply starts_nonspace_first_line; [|reflexivity].
  intros c r Hc. apply first_line_splitlines_cons.
  destruct (is_linebreak c) eqn:E; [|reflexivity].
  apply linebreak_is_space in E. congruence.
Qed.

(** On a text that does not start with white space, the header test on the
    trimmed first line is the header test on the text itself, whichever way
    the lines are cut. *)
Lemma header_test_split s h :
  starts_nonspace s = true -> no_space h = true ->
  startswith (lower (strip (first_line (split LF s)))) h = startswith (lower s) h.
Proof.
  intros Hs Hh. unfold strip. rewrite lstrip_id by (apply split_starts, Hs).
  rewrite startswith_lower_rstrip by assumption. apply startswith_lower_split, Hh.
Qed.

Lemma header_test_splitlines s h :
  starts_nonspace s = true -> no_space h = true ->
  startswith (lower (strip (first_line (splitlines s)))) h = startswith (lower s) h.
Proof.
  intros Hs Hh. unfold strip. rewrite lstrip_id by (apply splitlines_starts, Hs).
  rewrite startswith_lower_rstrip by assumption. apply startswith_lower_splitlines, Hh.
Qed.

Lemma strip_starts s : starts_nonspace (strip s) = true.
Proof. apply rstrip_starts, lstrip_starts. Qed.

(** ** The classifier *)

Lemma clean_mermaid_code_by_text text :
  clean_mermaid_code text =
    let start := lower (strip text) in
    if startswith start "graph" || startswith start "flowchart" then
      Return {| type := "flowchart"; code := strip text |}
    else if startswith start "sequencediagram" then
      Return {| type := "sequenceDiagram"; code := strip text |}
    else if startswith start "classdiagram" then
      Return {| type := "classDiagram"; code := strip text |}
    else Raise (ValueError "Invalid mermaid code").
Proof.
  unfold clean_mermaid_code.
  pose proof (strip_starts text) as Hs.
  pose proof (header_test_split (strip text) "graph" Hs eq_refl) as H1.
  pose proof (header_test_split (strip text) "flowchart" Hs eq_refl) as H2.
  pose proof (header_test_split (strip text) "sequencediagram" Hs eq_refl) as H3.
  pose proof (header_test_split (strip text) "classdiagram" Hs eq_refl) as H4.
  destruct (split_cons LF (strip text)) as (l & ls & E).
  rewrite E in *. unfold first_line in *. simpl hd in *. simpl getitem0. unfold bind.
  cbv zeta. rewrite H1, H2, H3, H4. reflexivity.
Qed.

Lemma clean_mermaid_code_cases text :
  clean_mermaid_code text = Raise (ValueError "Invalid mermaid code")
  \/ exists ty, clean_mermaid_code text = Return {| type := ty; code := strip text |}.
Proof.
  rewrite clean_mermaid_code_by_text. cbv zeta.
  repeat match goal with |- context [if ?b then _ else _] => destruct b end; eauto.
Qed.

Lemma clean_mermaid_code_fenced rest :
  clean_mermaid_code ("```" +:+ rest) = Raise (ValueError "Invalid mermaid code").
Proof.
  rewrite clean_mermaid_code_by_text. cbv zeta.
  assert (exists r, strip ("```" +:+ rest) = String "`" r) as [r ->].
  { unfold strip. simpl lstrip. apply rstrip_cons_nonspace. reflexivity. }
  reflexivity.
Qed.

(** C10: the classifier raises [ValueError] or returns the input with its
    leading and trailing white space removed and nothing else changed (the
    input is white space, then the code, then white space, and the code
    neither starts nor ends with white space); its decision is a function of
    the first line of the stripped text; a text that opens with a code fence
    is refused, fences are never removed. *)
Theorem clean_mermaid_code_only_trims (text : string) :
  (clean_mermaid_code text = Raise (ValueError "Invalid mermaid code")
   \/ exists ty, clean_mermaid_code text = Return {| type := ty; code := strip text |})
  /\ (exists ws1 ws2,
        text = ws1 +:+ strip text +:+ ws2
        /\ all_space ws1 = true /\ all_space ws2 = true
        /\ starts_nonspace (strip text) = true /\ ends_nonspace (strip text) = true)
  /\ (forall text',
        first_line (split LF (strip text')) = first_line (split LF (strip text)) ->
        decision (clean_mermaid_code text') = decision (clean_mermaid_code text))
  /\ (forall rest,
        clean_mermaid_code ("```" +:+ rest) = Raise (ValueError "Invalid mermaid code")).
Proof.
  split; [apply clean_mermaid_code_cases|].
  split; [apply strip_decompose|].
  split; [|apply clean_mermaid_code_fenced].
  intros text' H. unfold clean_mermaid_code.
  destruct (split_cons LF (strip text)) as (l & ls & E).
  destruct (split_cons LF (strip text')) as (l' & ls' & E').
  rewrite E, E' in *. unfold first_line in H. simpl in H. subst l'.
  simpl getitem0. unfold decision, bind. cbv beta iota zeta.
  repeat match goal with |- context [if ?b then _ else _] => destruct b end; reflexivity.
Qed.

Lemma clean_mermaid_code_only_trims_witness :
  decision (clean_mermaid_code (" graph TD" +:+ NL +:+ "A-->B"))
  = decision (clean_mermaid_code ("graph TD" +:+ NL +:+ "  C-->D  ")).
Proof.
  apply (proj1 (proj2 (proj2
    (clean_mermaid_code_only_trims ("graph TD" +:+ NL +:+ "  C-->D  "))))).
  reflexivity.
Defined.

(** ** The artifact invariant *)

Lemma first_nonblank_head l ls :
  starts_nonspace l = true -> l <> EmptyString ->
  Spec.first_nonblank_line (l :: ls) = Some l.
Proof.
  intros Hs Hne. unfold Spec.first_nonblank_line. simpl.
  destruct l as [|c l]; [congruence|]. simpl in *.
  apply negb_true_iff in Hs. rewrite Hs. reflexivity.
Qed.

Lemma startswith_lower_nonempty s h :
  h <> EmptyString -> startswith (lower s) h = true -> s <> EmptyString.
Proof. intros Hh H ->. destruct h; [congruence | discriminate]. Qed.

Lemma invariant_of_header (a : Artifact) (h : string) :
  In h headers ->
  starts_nonspace (code a) = true ->
  startswith (lower (code a)) h = true ->
  type a = Spec.kind_of_header h ->
  Spec.artifact_invariant (split LF) a /\ Spec.artifact_invariant splitlines a.
Proof.
  intros Hin Hs Hh Hty.
  assert (no_space h = true /\ h <> EmptyString) as [Hns Hne].
  { simpl in Hin. intuition (subst; try discriminate; try reflexivity). }
  pose proof (startswith_lower_nonempty _ _ Hne Hh) as Hcode.
  destruct (code a) as [|c r] eqn:Ec; [congruence|].
  assert (isspace c = false) as Hc by (apply negb_true_iff; exact Hs).
  split.
  - exists (first_line (split LF (String c r))), h.
    rewrite <- Ec, header_test_split, Ec by (rewrite ?Ec; assumption).
    repeat split; try assumption.
    destruct (split_cons LF (String c r)) as (l & ls & E).
    rewrite E. unfold first_line. simpl hd.
    assert (l = first_line (split LF (String c r))) as -> by (rewrite E; reflexivity).
    rewrite first_line_split_cons.
    + apply first_nonblank_head; [simpl; rewrite Hc; reflexivity | discriminate].
    + destruct (Ascii.eqb c LF) eqn:E'; [|reflexivity].
      apply LF_is_linebreak, linebreak_is_space in E'. congruence.
  - exists (first_line (splitlines (String c r))), h.
    rewrite <- Ec, header_test_splitlines, Ec by (rewrite ?Ec; assumption).
    repeat split; try assumption.
    assert (is_linebreak c = false) as Hb.
    { destruct (is_linebreak c) eqn:E'; [|reflexivity].
      apply linebreak_is_space in E'. congruence. }
    rewrite first_line_splitlines_cons by assumption.
    simpl splitlines. rewrite Hb.
    destruct (splitlines r) as [|l ls]; simpl first_line;
      (apply first_nonblank_head; [simpl; rewrite Hc; reflexivity | discriminate]).
Qed.

(** C6: every artifact the classifier returns satisfies the invariant: the
    first non-blank line of its code, trimmed and lower-cased, starts with
    one of the four headers, and its type is the kind of that header; this
    holds whether lines are cut at newlines, as the classifier cuts them, or
    at every line boundary of [splitlines]. [clean_mermaid_code] is the only
    place that builds an artifact. *)
Theorem artifact_invariant_holds (text : string) (a : Artifact) :
  clean_mermaid_code text = Return a ->
  Spec.artifact_invariant (split LF) a /\ Spec.artifact_invariant splitlines a.
Proof.
  rewrite clean_mermaid_code_by_text. cbv zeta.
  pose proof (strip_starts text) as Hs.
  destruct (startswith (lower (strip text)) "graph") eqn:H1.
  { simpl. intros [= <-]. apply (invariant_of_header _ "graph"); simpl; auto. }
  destruct (startswith (lower (strip text)) "flowchart") eqn:H2.
  { simpl. intros [= <-]. apply (invariant_of_header _ "flowchart"); simpl; auto. }
  destruct (startswith (lower (strip text)) "sequencediagram") eqn:H3.
  { simpl. intros [= <-]. apply (invariant_of_header _ "sequencediagram"); simpl; auto. }
  destruct (startswith (lower (strip text)) "classdiagram") eqn:H4.
  { simpl. intros [= <-]. apply (invariant_of_header _ "classdiagram"); simpl; auto. }
  simpl. discriminate.
Qed.

Lemma artifact_invariant_holds_witness :
  Spec.artifact_invariant (split LF)
    {| type := "sequenceDiagram"; code := "sequenceDiagram" +:+ NL +:+ "A->>B: hi" |}
  /\ Spec.artifact_invariant splitlines
    {| type := "sequenceDiagram"; code := "sequenceDiagram" +:+ NL +:+ "A->>B: hi" |}.
Proof.
  apply (artifact_invariant_holds
           (NL +:+ "  sequenceDiagram" +:+ NL +:+ "A->>B: hi" +:+ NL)).
  reflexivity.
Defined.

(** ** The look-up of the requested kind *)

Lemma lower_no_capital_D s : forall t1 t2, lower s <> t1 +:+ String "D" t2.
Proof.
  induction s as [|c s IH]; intros [|a t1] t2; simpl; try discriminate.
  - intros [= H _]. exact (lower_char_not_capital_D c H).
  - intros [= _ H]. exact (IH _ _ H).
Qed.

Lemma MERMAID_TYPE_MAP_lookup (key : string) :
  MERMAID_TYPE_MAP !! key =
    if String.eqb key "flowchart" || String.eqb key "graph" then Some "Flowchart"
    else if String.eqb key "sequence" || String.eqb key "sequencediagram"
            || String.eqb key "sequenceDiagram" then Some "Sequence"
    else if String.eqb key "class" || String.eqb key "classdiagram"
            || String.eqb key "classDiagram" then Some "Class"
    else None.
Proof.
  unfold MERMAID_TYPE_MAP. rewrite !lookup_insert, lookup_empty.
  repeat match goal with
         | |- context [decide (?k = key)] =>
             destruct (decide (k = key)) as [<-|?]; [reflexivity|]
         end.
  repeat match goal with
         | H : ?k <> key |- _ =>
             let E := fresh in
             assert (String.eqb key k = false) as E
               by (apply String.eqb_neq; congruence);
             rewrite E; clear H E
         end.
  reflexivity.
Qed.

Lemma resolve_diagram_type_table (s : string) :
  resolve_diagram_type s =
    let key := lower (strip s) in
    if String.eqb key "flowchart" || String.eqb key "graph" then Return "Flowchart"
    else if String.eqb key "sequence" || String.eqb key "sequencediagram" then Return "Sequence"
    else if String.eqb key "class" || String.eqb key "classdiagram" then Return "Class"
    else Raise (HTTPException 400 ("Unsupported diagram type: " +:+ s)).
Proof.
  unfold resolve_diagram_type. cbv zeta. rewrite MERMAID_TYPE_MAP_lookup.
  assert (String.eqb (lower (strip s)) "sequenceDiagram" = false) as ->.
  { apply String.eqb_neq. apply (lower_no_capital_D _ "sequence" "iagram"). }
  assert (String.eqb (lower (strip s)) "classDiagram" = false) as ->.
  { apply String.eqb_neq. apply (lower_no_capital_D _ "class" "iagram"). }
  rewrite !orb_false_r.
  repeat match goal with |- context [if ?b then _ else _] => destruct b end; reflexivity.
Qed.

(** What the handler reads back from [fetched_data] is what it has just
    stored. *)
Lemma getitem_requirement input fd :
  getitem (store_inputs input fd) "requirement" = Return (requirement input).
Proof.
  unfold getitem, store_inputs.
  rewrite lookup_insert_ne by discriminate. rewrite lookup_insert_eq. reflexivity.
Qed.

Lemma getitem_diagram_type input fd :
  getitem (store_inputs input fd) "diagram_type" = Return (diagram_type input).
Proof. unfold getitem, store_inputs. rewrite lookup_insert_eq. reflexivity. Qed.

(** The handler as a function of its request: the detour through
    [fetched_data] cancels when nothing runs in between. *)
Lemma receive_diagram_result env input fd :
  fst (receive_diagram env input fd) =
    try_except
      (let* mermaid := generate_mermaid_with_gemini env (requirement input) (diagram_type input) in
       let* result := clean_mermaid_code mermaid in
       Return {| status := "success";
                 echoed_requirement := requirement input;
                 echoed_diagram_type := diagram_type input;
                 Detected_Diagram_Type := type result;
                 Clean_Mermaid_Code := code result;
                 Json_Mermaid_Code := convertToJson (code result) |})
      except_clauses.
Proof.
  unfold receive_diagram, receive_diagram_try. cbv zeta. simpl fst.
  rewrite getitem_requirement, getitem_diagram_type. reflexivity.
Qed.

Lemma receive_diagram_unresolved env input fd e :
  resolve_diagram_type (diagram_type input) = Raise e ->
  fst (receive_diagram env input fd)
  = Raise (HTTPException 400 ("Unsupported diagram type: " +:+ diagram_type input)).
Proof.
  intros H. rewrite receive_diagram_result. unfold generate_mermaid_with_gemini.
  rewrite H. rewrite resolve_diagram_type_table in H. cbv zeta in H.
  repeat match type of H with
         | (if ?b then _ else _) = _ => destruct b; [discriminate H|]
         end.
  injection H as <-. reflexivity.
Qed.

(** C1: the resolver trims, lower-cases and looks the result up: the six
    lower-case keys give their kind, the seven spellings of the
    specification resolve to the right kind, and every other string fails
    with status 400, from the resolver and from the endpoint alike; no kind
    is a default. *)
Theorem resolver_follows_table (s : string) :
  let key := lower (strip s) in
  resolve_diagram_type s =
    (if String.eqb key "flowchart" || String.eqb key "graph" then Return "Flowchart"
     else if String.eqb key "sequence" || String.eqb key "sequencediagram" then Return "Sequence"
     else if String.eqb key "class" || String.eqb key "classdiagram" then Return "Class"
     else Raise (HTTPException 400 ("Unsupported diagram type: " +:+ s)))
  /\ (forall e, resolve_diagram_type s = Raise e ->
        forall env req fd,
          fst (receive_diagram env {| requirement := req; diagram_type := s |} fd)
          = Raise (HTTPException 400 ("Unsupported diagram type: " +:+ s)))
  /\ resolve_diagram_type "flowchart" = Return "Flowchart"
  /\ resolve_diagram_type "Flowchart" = Return "Flowchart"
  /\ resolve_diagram_type "graph" = Return "Flowchart"
  /\ resolve_diagram_type "sequence" = Return "Sequence"
  /\ resolve_diagram_type "sequenceDiagram" = Return "Sequence"
  /\ resolve_diagram_type "class" = Return "Class"
  /\ resolve_diagram_type "classDiagram" = Return "Class"
  /\ resolve_diagram_type "pie" = Raise (HTTPException 400 "Unsupported diagram type: pie").
Proof.
  cbv zeta. split; [apply resolve_diagram_type_table|].
  split.
  - intros e H env req fd.
    apply (receive_diagram_unresolved env {| requirement := req; diagram_type := s |} fd e H).
  - repeat split; vm_compute; reflexivity.
Qed.

Lemma resolver_follows_table_witness :
  fst (receive_diagram (stub_env "graph TD")
         {| requirement := "r"; diagram_type := " Pie " |} ∅)
  = Raise (HTTPException 400 "Unsupported diagram type:  Pie ").
Proof.
  exact (proj1 (proj2 (resolver_follows_table " Pie ")) _ eq_refl _ _ _).
Defined.

(** ** The model call and the first-line check *)

Lemma str_HTTPException_502 d : str (HTTPException 502 d) = "502: " +:+ d.
Proof. unfold str. replace (pretty 502) with "502" by (vm_compute; reflexivity). reflexivity. Qed.

Lemma splitlines_cons c s : exists l ls, splitlines (String c s) = l :: ls.
Proof.
  simpl. destruct (is_linebreak c).
  - destruct s; [eauto|]. destruct (_ && _); eauto.
  - destruct (splitlines s); eauto.
Qed.

Lemma validate_first_line_eq text :
  text <> EmptyString ->
  validate_first_line text =
    if header_test (first_line (splitlines text)) then Return text
    else Raise (HTTPException 502 "Gemini API did not return valid Mermaid syntax").
Proof.
  intros Hne. destruct text as [|c s]; [congruence|].
  unfold validate_first_line, header_test.
  destruct (splitlines_cons c s) as (l & ls & ->). simpl getitem0. unfold bind, first_line.
  simpl hd. destruct (startswith_any _ _); reflexivity.
Qed.

Lemma splitlines_first_app s :
  exists tail, s = first_line (splitlines s) +:+ tail.
Proof.
  induction s as [|c s [tail IH]]; [exists EmptyString; reflexivity|].
  destruct (is_linebreak c) eqn:Hc.
  - rewrite first_line_splitlines_break by assumption. exists (String c s). reflexivity.
  - rewrite first_line_splitlines_cons by assumption. exists tail. simpl. congruence.
Qed.

Lemma lower_app s t : lower (s +:+ t) = lower s +:+ lower t.
Proof. induction s; simpl; congruence. Qed.

Lemma startswith_app s t : forall h,
  startswith s h = true -> startswith (s +:+ t) h = true.
Proof.
  induction s as [|c s IH]; intros [|a h]; simpl; try discriminate; try reflexivity.
  - intros _. apply startswith_nil_r.
  - destruct (Ascii.eqb a c); [apply IH | discriminate].
Qed.

Lemma lstrip_app l t :
  lstrip l <> EmptyString -> lstrip (l +:+ t) = lstrip l +:+ t.
Proof.
  induction l as [|c l IH]; simpl; [congruence|].
  destruct (isspace c); [exact IH | reflexivity].
Qed.

Lemma header_test_header l :
  header_test l = true ->
  exists h, In h headers /\ no_space h = true /\ h <> EmptyString
            /\ startswith (lower (strip l)) h = true.
Proof.
  unfold header_test, startswith_any. intros H.
  apply existsb_exists in H as (h & Hin & Hh). exists h.
  repeat split; try assumption;
    simpl in Hin; intuition (subst; try discriminate; reflexivity).
Qed.

(** A text the first-line check lets through starts, once trimmed and
    lower-cased, with the same header. *)
Lemma validated_text_header text h :
  no_space h = true -> h <> EmptyString ->
  startswith (lower (strip (first_line (splitlines text)))) h = true ->
  startswith (lower (strip text)) h = true.
Proof.
  intros Hns Hne H.
  destruct (splitlines_first_app text) as [tail Ht].
  set (l := first_line (splitlines text)) in *.
  unfold strip in H. rewrite startswith_lower_rstrip in H by assumption.
  assert (lstrip l <> EmptyString) as Hl by (apply (startswith_lower_nonempty _ h); assumption).
  rewrite Ht. unfold strip. rewrite startswith_lower_rstrip by assumption.
  rewrite lstrip_app by assumption. rewrite lower_app. apply startswith_app, H.
Qed.

Lemma validated_text_classifies text :
  header_test (first_line (splitlines text)) = true ->
  exists ty, clean_mermaid_code text = Return {| type := ty; code := strip text |}.
Proof.
  intros H. apply header_test_header in H as (h & Hin & Hns & Hne & Hh).
  apply validated_text_header in Hh; [|assumption..].
  destruct (clean_mermaid_code_cases text) as [E|E]; [|exact E].
  rewrite clean_mermaid_code_by_text in E. cbv zeta in E.
  simpl in Hin. destruct Hin as [<-|[<-|[<-|[<-|[]]]]]; rewrite Hh in E;
    rewrite ?orb_true_r in E; simpl in E; try discriminate E;
    repeat match type of E with
           | (if ?b then _ else _) = _ => destruct b; try discriminate E
           end.
Qed.

Lemma all_space_first_line s :
  all_space s = true -> all_space (first_line (splitlines s)) = true.
Proof.
  intros H. destruct (splitlines_first_app s) as [tail Ht].
  rewrite Ht, all_space_app in H. apply andb_true_iff in H. tauto.
Qed.

Lemma header_test_blank l : all_space l = true -> header_test l = false.
Proof. intros H. unfold header_test. rewrite (strip_all_space l H). reflexivity. Qed.

(** The outcome of [generate_mermaid_with_gemini] once the kind is
    resolved and the prompt file is read. *)
Lemma generate_mermaid_with_gemini_eq env req dt kind prompt :
  resolve_diagram_type dt = Return kind ->
  read_prompt_file env = Return prompt ->
  generate_mermaid_with_gemini env req dt =
    match generate_content env prompt with
    | Raise e => Raise (HTTPException 502 ("Gemini API error: " +:+ str e))
    | Return text =>
        if String.eqb text EmptyString then
          Raise (HTTPException 502 "Gemini API error: 502: Gemini API returned empty response")
        else if header_test (first_line (splitlines text)) then Return text
        else Raise (HTTPException 502
                      "Gemini API error: 502: Gemini API did not return valid Mermaid syntax")
    end.
Proof.
  intros Hk Hp. unfold generate_mermaid_with_gemini, full_prompt, generate_and_validate.
  rewrite Hk, Hp. simpl bind.
  destruct (generate_content env prompt) as [text|e]; [|reflexivity]. simpl bind.
  destruct (String.eqb text EmptyString) eqn:E.
  - unfold try_except. rewrite str_HTTPException_502. reflexivity.
  - apply String.eqb_neq in E. rewrite (validate_first_line_eq text E).
    destruct (header_test _); [reflexivity|].
    unfold try_except. rewrite str_HTTPException_502. reflexivity.
Qed.

(** The outcome of the endpoint, case by case. *)
Lemma receive_diagram_cases env input fd :
  fst (receive_diagram env input fd) =
    match resolve_diagram_type (diagram_type input) with
    | Raise _ =>
        Raise (HTTPException 400 ("Unsupported diagram type: " +:+ diagram_type input))
    | Return _ =>
        match read_prompt_file env with
        | Raise e => except_clauses e
        | Return prompt =>
            match generate_content env prompt with
            | Raise e => Raise (HTTPException 502 ("Gemini API error: " +:+ str e))
            | Return text =>
                if String.eqb text EmptyString then
                  Raise (HTTPException 502
                           "Gemini API error: 502: Gemini API returned empty response")
                else if header_test (first_line (splitlines text)) then
                  let* result := clean_mermaid_code text in
                  Return {| status := "success";
                            echoed_requirement := requirement input;
                            echoed_diagram_type := diagram_type input;
                            Detected_Diagram_Type := type result;
                            Clean_Mermaid_Code := strip text;
                            Json_Mermaid_Code := convertToJson (strip text) |}
                else
                  Raise (HTTPException 502
                           "Gemini API error: 502: Gemini API did not return valid Mermaid syntax")
            end
        end
    end.
Proof.
  destruct (resolve_diagram_type (diagram_type input)) as [kind|e] eqn:Hk.
  2: { apply (receive_diagram_unresolved env input fd e Hk). }
  rewrite receive_diagram_result.
  destruct (read_prompt_file env) as [prompt|e] eqn:Hp.
  2: { unfold generate_mermaid_with_gemini, full_prompt. rewrite Hk, Hp. reflexivity. }
  rewrite (generate_mermaid_with_gemini_eq env _ _ kind prompt Hk Hp).
  destruct (generate_content env prompt) as [text|e]; [|reflexivity].
  destruct (String.eqb text EmptyString); [reflexivity|].
  destruct (header_test _) eqn:Hh; [|reflexivity].
  destruct (validated_text_classifies text Hh) as [ty E].
  unfold try_except, bind. cbv beta iota. rewrite E. reflexivity.
Qed.

Lemma validator_accepts_first_line text :
  all_space (first_line (splitlines text)) = false ->
  Spec.validator_accepts text = header_test (first_line (splitlines text)).
Proof.
  unfold Spec.validator_accepts, Spec.first_nonblank_line, header_test.
  destruct (splitlines text) as [|l ls]; [discriminate|].
  unfold first_line. simpl. intros ->. reflexivity.
Qed.

Lemma first_line_not_blank text :
  all_space (first_line (splitlines text)) = false -> text <> EmptyString.
Proof. intros H ->. discriminate H. Qed.

(** C2, as the code has it: the check reads the first line of the text.
    When that line is not blank it is the first non-blank line, and the text
    is accepted if and only if that line, trimmed and lower-cased, starts
    with one of the four headers; a rejected text fails with status 502 and
    one fixed message, which does not carry the line. *)
Theorem validator_checks_first_line (text : string) :
  all_space (first_line (splitlines text)) = false ->
  validate_first_line text =
    (if Spec.validator_accepts text then Return text
     else Raise (HTTPException 502 "Gemini API did not return valid Mermaid syntax"))
  /\ (forall env req dt kind prompt fd,
        resolve_diagram_type dt = Return kind ->
        read_prompt_file env = Return prompt ->
        generate_content env prompt = Return text ->
        Spec.validator_accepts text = false ->
        fst (receive_diagram env {| requirement := req; diagram_type := dt |} fd)
        = Raise (HTTPException 502
                   "Gemini API error: 502: Gemini API did not return valid Mermaid syntax")).
Proof.
  intros Hl. pose proof (first_line_not_blank text Hl) as Hne.
  rewrite (validator_accepts_first_line text Hl).
  split; [apply validate_first_line_eq, Hne|].
  intros env req dt kind prompt fd Hk Hp Hg Hh.
  rewrite receive_diagram_cases. simpl diagram_type. rewrite Hk, Hp, Hg, Hh.
  apply String.eqb_neq in Hne. rewrite Hne. reflexivity.
Qed.

Lemma validator_checks_first_line_witness :
  validate_first_line "I cannot help with that."
  = Raise (HTTPException 502 "Gemini API did not return valid Mermaid syntax").
Proof.
  exact (proj1 (validator_checks_first_line "I cannot help with that." eq_refl)).
Defined.

(** C2 as stated fails: a text whose first non-blank line is a header line
    but which begins with a blank line is rejected, and the rejection of
    ["I cannot help with that."] has the same message, without that line. *)
Lemma validator_rejects_leading_blank_line :
  Spec.validator_accepts (NL +:+ "graph TD") = true
  /\ validate_first_line (NL +:+ "graph TD")
     = Raise (HTTPException 502 "Gemini API did not return valid Mermaid syntax")
  /\ validate_first_line "I cannot help with that."
     = Raise (HTTPException 502 "Gemini API did not return valid Mermaid syntax")
  /\ fst (receive_diagram (stub_env (NL +:+ "graph TD"))
            {| requirement := "r"; diagram_type := "flowchart" |} ∅)
     = Raise (HTTPException 502
                "Gemini API error: 502: Gemini API did not return valid Mermaid syntax").
Proof. repeat split; vm_compute; reflexivity. Qed.

(** C3, as the code has it: the emptiness test catches the empty string
    only; a result of white space alone goes on to the first-line check and
    is reported as invalid syntax.  Both are answered with status 502. *)
Theorem blank_generation_result env req dt kind prompt text fd :
  resolve_diagram_type dt = Return kind ->
  read_prompt_file env = Return prompt ->
  generate_content env prompt = Return text ->
  all_space text = true ->
  fst (receive_diagram env {| requirement := req; diagram_type := dt |} fd)
  = Raise (HTTPException 502
             (if String.eqb text EmptyString
              then "Gemini API error: 502: Gemini API returned empty response"
              else "Gemini API error: 502: Gemini API did not return valid Mermaid syntax")).
Proof.
  intros Hk Hp Hg Hs. rewrite receive_diagram_cases. simpl diagram_type.
  rewrite Hk, Hp, Hg. destruct (String.eqb text EmptyString); [reflexivity|].
  rewrite header_test_blank by (apply all_space_first_line, Hs). reflexivity.
Qed.

Lemma blank_generation_result_witness :
  fst (receive_diagram (stub_env EmptyString)
         {| requirement := "r"; diagram_type := "flowchart" |} ∅)
  = Raise (HTTPException 502 "Gemini API error: 502: Gemini API returned empty response").
Proof.
  exact (blank_generation_result (stub_env EmptyString) "r" "flowchart" "Flowchart"
           "PROMPT" EmptyString ∅ eq_refl eq_refl eq_refl eq_refl).
Defined.

(** C3 as stated fails: a result of one space is not reported as empty. *)
Lemma whitespace_result_is_invalid_syntax :
  all_space " " = true
  /\ fst (receive_diagram (stub_env " ")
            {| requirement := "r"; diagram_type := "flowchart" |} ∅)
     = Raise (HTTPException 502
                "Gemini API error: 502: Gemini API did not return valid Mermaid syntax")
  /\ fst (receive_diagram (stub_env " ")
            {| requirement := "r"; diagram_type := "flowchart" |} ∅)
     <> Raise (HTTPException 502
                "Gemini API error: 502: Gemini API returned empty response").
Proof. repeat split; try (vm_compute; reflexivity). vm_compute. discriminate. Qed.

(** ** The sanitizer, and what the pipeline does with fenced output *)

Lemma lstrip_padding ws s : all_space ws = true -> lstrip (ws +:+ s) = lstrip s.
Proof.
  induction ws as [|c ws IH]; simpl; [reflexivity|].
  intros H. apply andb_true_iff in H as [-> H]. exact (IH H).
Qed.

Lemma rstrip_padding s ws : all_space ws = true -> rstrip (s +:+ ws) = rstrip s.
Proof.
  intros H. induction s as [|c s IH]; simpl.
  - apply rstrip_all_space, H.
  - rewrite IH. reflexivity.
Qed.

Lemma strip_padded ws1 s ws2 :
  all_space ws1 = true -> all_space ws2 = true ->
  strip (ws1 +:+ s +:+ ws2) = strip s.
Proof.
  intros H1 H2. unfold strip. rewrite lstrip_padding by assumption.
  destruct (lstrip_decompose s) as (ws & Hs & Hws).
  destruct (lstrip s) as [|c r] eqn:E.
  - rewrite append_nil_r in Hs. subst s.
    rewrite lstrip_all_space; [reflexivity|].
    rewrite all_space_app, Hws, H2. reflexivity.
  - assert (lstrip (s +:+ ws2) = String c r +:+ ws2) as ->.
    { rewrite <- E. apply lstrip_app. congruence. }
    apply rstrip_padding, H2.
Qed.

Lemma ends_nonspace_app s t :
  t <> EmptyString -> ends_nonspace (s +:+ t) = ends_nonspace t.
Proof.
  intros Ht. induction s as [|c s IH]; [reflexivity|].
  simpl. destruct (s +:+ t) eqn:E; [|exact IH].
  destruct s; simpl in E; congruence.
Qed.

Lemma drop_letters_tag tag rest :
  all_letters tag = true ->
  drop_letters (tag +:+ String LF rest) = String LF rest.
Proof.
  induction tag as [|c tag IH]; simpl; [reflexivity|].
  intros H. apply andb_true_iff in H as [-> H]. exact (IH H).
Qed.

Lemma length_app s t : String.length (s +:+ t) = (String.length s + String.length t)%nat.
Proof. induction s; simpl; congruence. Qed.

Lemma closing_fence_not_here c body :
  closing_fence_here (String c (body +:+ NL +:+ "```")) = None.
Proof.
  unfold closing_fence_here.
  assert (forall t, (String.length t < 5)%nat ->
            String.eqb (String c (body +:+ NL +:+ "```")) t = false) as Hshort.
  { intros t Ht. apply String.eqb_neq. intros E.
    apply (f_equal String.length) in E. simpl in E. rewrite length_app in E.
    simpl in E. lia. }
  rewrite !Hshort by (simpl; lia).
  assert (String.eqb (String c (body +:+ NL +:+ "```")) (NL +:+ "```" +:+ NL) = false) as ->.
  { apply String.eqb_neq. intros E. pose proof (f_equal String.length E) as L.
    simpl in L. rewrite length_app in L. simpl in L.
    destruct body; [discriminate E | simpl in L; lia]. }
  reflexivity.
Qed.

Lemma sub_closing_fence_body body :
  sub_closing_fence (body +:+ NL +:+ "```") = body.
Proof.
  induction body as [|c body IH]; [reflexivity|].
  change (String c body +:+ NL +:+ "```") with (String c (body +:+ NL +:+ "```")).
  unfold sub_closing_fence; fold sub_closing_fence.
  rewrite closing_fence_not_here, IH. reflexivity.
Qed.

(** What [sanitize_candidate] computes on a fenced block: the body,
    trimmed. *)
Lemma sanitize_candidate_fenced ws1 tag body ws2 :
  all_space ws1 = true -> all_space ws2 = true -> all_letters tag = true ->
  sanitize_candidate
    (ws1 +:+ ("```" +:+ tag +:+ NL +:+ body +:+ NL +:+ "```") +:+ ws2)
  = strip body.
Proof.
  intros H1 H2 Ht. unfold sanitize_candidate.
  rewrite strip_padded by assumption.
  assert (strip ("```" +:+ tag +:+ NL +:+ body +:+ NL +:+ "```")
          = "```" +:+ tag +:+ NL +:+ body +:+ NL +:+ "```") as ->.
  { unfold strip. rewrite lstrip_id by reflexivity. apply rstrip_id.
    repeat rewrite ends_nonspace_app
      by (intros E; apply (f_equal String.length) in E;
          rewrite ?length_app in E; simpl in E; lia).
    reflexivity. }
  simpl sub_opening_fence.
  rewrite drop_letters_tag by assumption. simpl drop_newline.
  change (body +:+ String LF "```") with (body +:+ NL +:+ "```").
  rewrite sub_closing_fence_body. reflexivity.
Qed.

Lemma header_test_backtick x : header_test (String "`" x) = false.
Proof.
  unfold header_test, strip. simpl lstrip.
  destruct (rstrip_cons_nonspace "`" x eq_refl) as [r ->]. reflexivity.
Qed.

(** C4: the sanitizer is defined and would strip the fences, but the
    pipeline never calls it: the fenced text of the specification's example
    is rejected with status 502, as is every model output that opens with a
    fence; the classifier alone refuses it too. *)
Theorem fenced_output_is_rejected :
  let raw := "```mermaid" +:+ NL +:+ "graph TD" +:+ NL +:+ "A-->B" +:+ NL +:+ "```" in
  sanitize_candidate raw = "graph TD" +:+ NL +:+ "A-->B"
  /\ clean_mermaid_code (sanitize_candidate raw)
     = Return {| type := "flowchart"; code := "graph TD" +:+ NL +:+ "A-->B" |}
  /\ clean_mermaid_code raw = Raise (ValueError "Invalid mermaid code")
  /\ fst (receive_diagram (stub_env raw)
            {| requirement := "r"; diagram_type := "flowchart" |} ∅)
     = Raise (HTTPException 502
                "Gemini API error: 502: Gemini API did not return valid Mermaid syntax")
  /\ (forall env req dt kind prompt fd rest,
        resolve_diagram_type dt = Return kind ->
        read_prompt_file env = Return prompt ->
        generate_content env prompt = Return ("```" +:+ rest) ->
        fst (receive_diagram env {| requirement := req; diagram_type := dt |} fd)
        = Raise (HTTPException 502
                   "Gemini API error: 502: Gemini API did not return valid Mermaid syntax")).
Proof.
  cbv zeta. repeat split; try (vm_compute; reflexivity).
  intros env req dt kind prompt fd rest Hk Hp Hg.
  rewrite receive_diagram_cases. simpl diagram_type. rewrite Hk, Hp, Hg.
  simpl String.eqb. simpl String.append.
  rewrite first_line_splitlines_cons by reflexivity.
  rewrite header_test_backtick. reflexivity.
Qed.

(** ** The prompt *)

(** C7: the prompt is the content of the prompt file whatever the request
    says: two requests with different requirement texts are sent to the
    model under the same prompt, and the outcome of the model call does not
    depend on the requirement. *)
Theorem prompt_ignores_request (env : Env) (req1 req2 kind1 kind2 dt : string) :
  full_prompt env req1 kind1 = read_prompt_file env
  /\ full_prompt env req1 kind1 = full_prompt env req2 kind2
  /\ generate_mermaid_with_gemini env req1 dt = generate_mermaid_with_gemini env req2 dt
  /\ full_prompt (stub_env "graph TD") "Driver must be alerted" "Flowchart"
     = full_prompt (stub_env "graph TD") "Door must lock" "Flowchart".
Proof. repeat split; reflexivity. Qed.

(** ** Statuses *)

Lemma diagram_variant_result input fd :
  exists a,
    clean_mermaid_code PythonFastapi.mermaid = Return a
    /\ type a = "flowchart"
    /\ fst (PythonFastapi.receive_diagram input fd)
       = Return (Some {| status := "success";
                         echoed_requirement := requirement input;
                         echoed_diagram_type := diagram_type input;
                         Detected_Diagram_Type := type a;
                         Clean_Mermaid_Code := code a;
                         Json_Mermaid_Code := convertToJson PythonFastapi.mermaid |}).
Proof.
  destruct (clean_mermaid_code PythonFastapi.mermaid) as [a|e] eqn:E;
    [|vm_compute in E; discriminate E].
  exists a. split; [reflexivity|]. split.
  - pose proof E as E'. vm_compute in E'. injection E' as <-. reflexivity.
  - unfold PythonFastapi.receive_diagram, PythonFastapi.receive_diagram_try.
    cbv zeta. unfold fst.
    rewrite getitem_requirement, getitem_diagram_type, E. reflexivity.
Qed.

Lemma receive_diagram_taxonomy env input fd :
  taxonomy_of env input (fst (receive_diagram env input fd)).
Proof.
  unfold taxonomy_of. rewrite receive_diagram_cases.
  destruct (resolve_diagram_type (diagram_type input)); [|reflexivity].
  destruct (read_prompt_file env) as [prompt|[]]; try reflexivity.
  destruct (generate_content env prompt) as [text|e]; [|reflexivity].
  destruct (String.eqb text EmptyString); [reflexivity|].
  destruct (header_test _) eqn:Hh; [|reflexivity].
  destruct (validated_text_classifies text Hh) as [ty ->]. exists ty. reflexivity.
Qed.

Lemma diagram_variant_answer input fd :
  exists resp,
    fst (PythonFastapi.receive_diagram input fd) = Return (Some resp)
    /\ status resp = "success"
    /\ echoed_requirement resp = requirement input
    /\ echoed_diagram_type resp = diagram_type input
    /\ Detected_Diagram_Type resp = "flowchart"
    /\ Clean_Mermaid_Code resp = strip PythonFastapi.mermaid
    /\ Json_Mermaid_Code resp = convertToJson (strip PythonFastapi.mermaid).
Proof.
  destruct (diagram_variant_result input fd) as (a & Ha & Hty & Hr).
  destruct (clean_mermaid_code_cases PythonFastapi.mermaid) as [E|[ty E]];
    rewrite E in Ha; [discriminate Ha|]. injection Ha as <-.
  eexists. split; [exact Hr|]. simpl in *.
  split; [reflexivity|]. split; [reflexivity|]. split; [reflexivity|].
  split; [exact Hty|]. split; [reflexivity|].
  unfold convertToJson. rewrite strip_idempotent. reflexivity.
Qed.

(** C8, as the code has it.  On [/api/fetch_req_diagramType] every outcome
    is a success or an [HTTPException] with a detail: 400 for a kind outside
    the table; 502 when the model call raises, returns the empty string, or
    returns a text whose first line fails the check; an exception from
    reading the prompt file goes through the [except] clauses, 502 with its
    message for a [ValueError], 500 for any other class.  On [/diagram]
    every request, whatever its kind, is answered with a success built from
    the fixed diagram text: status 200, a response (never [None]) that
    echoes the two inputs, with detected type ["flowchart"], the fixed text
    trimmed as clean code and its serialization as JSON. *)
Theorem failure_taxonomy (env : Env) (input : DiagramRequest) (fd : gmap string string) :
  let r := fst (receive_diagram env input fd) in
  ((exists resp, r = Return resp /\ status resp = "success")
   \/ (exists status_code detail, r = Raise (HTTPException status_code detail)))
  /\ taxonomy_of env input r
  /\ http_status (fst (PythonFastapi.receive_diagram input fd)) = 200
  /\ (exists resp,
        fst (PythonFastapi.receive_diagram input fd) = Return (Some resp)
        /\ status resp = "success"
        /\ echoed_requirement resp = requirement input
        /\ echoed_diagram_type resp = diagram_type input
        /\ Detected_Diagram_Type resp = "flowchart"
        /\ Clean_Mermaid_Code resp = strip PythonFastapi.mermaid
        /\ Json_Mermaid_Code resp = convertToJson (strip PythonFastapi.mermaid)).
Proof.
  cbv zeta. pose proof (receive_diagram_taxonomy env input fd) as Hcases.
  split; [|split; [exact Hcases|split; [|apply diagram_variant_answer]]].
  - revert Hcases. unfold taxonomy_of.
    repeat match goal with
           | |- match ?x with _ => _ end -> _ => destruct x
           | |- (if ?b then _ else _) -> _ => destruct b
           end; intros H;
      lazymatch type of H with
      | ex _ => destruct H as [ty H]
      | _ => idtac
      end; rewrite H; eauto.
  - destruct (diagram_variant_result input fd) as (a & _ & _ & ->). reflexivity.
Qed.

(** C8 as stated fails on [/diagram]: a request for the unsupported kind
    ["pie"], which [/api/fetch_req_diagramType] answers with 400, gets a
    success there. *)
Lemma diagram_variant_accepts_unsupported_kind :
  resolve_diagram_type "pie" = Raise (HTTPException 400 "Unsupported diagram type: pie")
  /\ http_status (fst (receive_diagram (stub_env "graph TD")
                         {| requirement := "r"; diagram_type := "pie" |} ∅)) = 400
  /\ http_status (fst (PythonFastapi.receive_diagram
                         {| requirement := "r"; diagram_type := "pie" |} ∅)) = 200
  /\ Detected_Diagram_Type <$>
       (match fst (PythonFastapi.receive_diagram
                     {| requirement := "r"; diagram_type := "pie" |} ∅) with
        | Return (Some resp) => Some resp
        | _ => None
        end) = Some "flowchart".
Proof. repeat split; vm_compute; reflexivity. Qed.

(** ** Two requests and the shared dict *)

Lemma receive_diagram_echo env input fd resp :
  fst (receive_diagram env input fd) = Return resp ->
  echoed_requirement resp = requirement input
  /\ echoed_diagram_type resp = diagram_type input.
Proof.
  rewrite receive_diagram_result.
  destruct (generate_mermaid_with_gemini _ _ _) as [m|[]]; simpl; try discriminate.
  destruct (clean_mermaid_code m) as [a|[]]; simpl; try discriminate.
  intros [= <-]. split; reflexivity.
Qed.

Lemma echoes_receive env input fd :
  EventLoop.echoes (EventLoop.Finished (fst (receive_diagram env input fd))) input.
Proof. intros resp [= H]. exact (receive_diagram_echo _ _ _ _ H). Qed.

Lemma receive_diagram_shared env input fd :
  snd (receive_diagram env input fd) = store_inputs input fd.
Proof. reflexivity. Qed.

Lemma serve_echo tasks : forall fd,
  Forall2 (fun t r => EventLoop.echoes (EventLoop.Finished r) (EventLoop.input t))
    tasks (fst (EventLoop.serve tasks fd)).
Proof.
  induction tasks as [|t ts IH]; intros fd; [constructor|].
  change (EventLoop.serve (t :: ts) fd)
    with (let (r, fd1) := receive_diagram (EventLoop.env t) (EventLoop.input t) fd in
          let (rs, fd2) := EventLoop.serve ts fd1 in (r :: rs, fd2)).
  destruct (receive_diagram (EventLoop.env t) (EventLoop.input t) fd) as [r fd'] eqn:E.
  specialize (IH fd'). destruct (EventLoop.serve ts fd') as [rs fd''].
  unfold fst in *. constructor; [|exact IH].
  pose proof (echoes_receive (EventLoop.env t) (EventLoop.input t) fd) as H.
  rewrite E in H. exact H.
Qed.

(** C9, as the code has it: the two inputs of a request are kept in the
    shared dict [fetched_data] under the fixed keys ["requirement"] and
    ["diagram_type"], where the next request finds and overwrites them; a
    handler that runs from its stores to its answer with nothing in between,
    as the event loop runs it, answers with its own inputs, for any number
    of requests in any order. *)
Theorem run_to_completion_echoes_own_inputs
    (tA tB : EventLoop.Task) (tasks : list EventLoop.Task) (fd : gmap string string) :
  let ab := EventLoop.interleave [true; true; false; false] tA tB fd in
  let ba := EventLoop.interleave [false; false; true; true] tA tB fd in
  (EventLoop.first ab, EventLoop.second ab)
  = (EventLoop.Finished (fst (receive_diagram (EventLoop.env tA) (EventLoop.input tA) fd)),
     EventLoop.Finished
       (fst (receive_diagram (EventLoop.env tB) (EventLoop.input tB)
               (snd (receive_diagram (EventLoop.env tA) (EventLoop.input tA) fd)))))
  /\ EventLoop.echoes (EventLoop.first ab) (EventLoop.input tA)
  /\ EventLoop.echoes (EventLoop.second ab) (EventLoop.input tB)
  /\ EventLoop.echoes (EventLoop.first ba) (EventLoop.input tA)
  /\ EventLoop.echoes (EventLoop.second ba) (EventLoop.input tB)
  /\ EventLoop.shared ab !! "requirement" = Some (requirement (EventLoop.input tB))
  /\ EventLoop.shared ab !! "diagram_type" = Some (diagram_type (EventLoop.input tB))
  /\ EventLoop.shared ba !! "requirement" = Some (requirement (EventLoop.input tA))
  /\ EventLoop.shared ba !! "diagram_type" = Some (diagram_type (EventLoop.input tA))
  /\ Forall2 (fun t r => EventLoop.echoes (EventLoop.Finished r) (EventLoop.input t))
       tasks (fst (EventLoop.serve tasks fd)).
Proof.
  cbv zeta. unfold EventLoop.interleave.
  cbn [fold_left EventLoop.step EventLoop.step_thread
       EventLoop.first EventLoop.second EventLoop.shared].
  split; [reflexivity|].
  split; [exact (echoes_receive (EventLoop.env tA) (EventLoop.input tA) fd)|].
  split; [exact (echoes_receive (EventLoop.env tB) (EventLoop.input tB)
                   (store_inputs (EventLoop.input tA) fd))|].
  split; [exact (echoes_receive (EventLoop.env tA) (EventLoop.input tA)
                   (store_inputs (EventLoop.input tB) fd))|].
  split; [exact (echoes_receive (EventLoop.env tB) (EventLoop.input tB) fd)|].
  split; [|split; [|split; [|split; [|apply serve_echo]]]].
  - unfold store_inputs. rewrite lookup_insert_ne by discriminate.
    apply lookup_insert_eq.
  - unfold store_inputs. apply lookup_insert_eq.
  - unfold store_inputs. rewrite lookup_insert_ne by discriminate.
    apply lookup_insert_eq.
  - unfold store_inputs. apply lookup_insert_eq.
Qed.

(** C9 as stated fails on where the data is held: the inputs are not
    request-local.  When the handler has answered a request, its two inputs
    are in the shared dict under the fixed keys, where the next request
    finds them; two requests served one after the other both answer with
    their own inputs and leave the second request's inputs in the dict, in
    place of the first's. *)
Lemma inputs_stay_in_the_shared_dict :
  let tA := {| EventLoop.env := stub_env "graph TD";
               EventLoop.input := {| requirement := "door"; diagram_type := "flowchart" |} |} in
  let tB := {| EventLoop.env := stub_env "classDiagram";
               EventLoop.input := {| requirement := "seatbelt"; diagram_type := "class" |} |} in
  snd (receive_diagram (EventLoop.env tA) (EventLoop.input tA) ∅) !! "requirement"
  = Some "door"
  /\ snd (receive_diagram (EventLoop.env tA) (EventLoop.input tA) ∅) !! "diagram_type"
     = Some "flowchart"
  /\ snd (EventLoop.serve [tA; tB] ∅) !! "requirement" = Some "seatbelt"
  /\ snd (EventLoop.serve [tA; tB] ∅) !! "diagram_type" = Some "class"
  /\ map (fun r => match r with
                   | Return resp => Some (echoed_requirement resp, echoed_diagram_type resp)
                   | Raise _ => None
                   end) (fst (EventLoop.serve [tA; tB] ∅))
     = [Some ("door", "flowchart"); Some ("seatbelt", "class")].
Proof. cbv zeta. repeat split; vm_compute; reflexivity. Qed.

(** ** The serializer *)

Lemma scanstring_escape_char c rest :
  JsonDecode.scanstring (Json.escape_char c +:+ rest)
  = JsonDecode.cons_char c (JsonDecode.scanstring rest).
Proof. each_char c; reflexivity. Qed.

Lemma scanstring_escape s rest :
  JsonDecode.scanstring (Json.escape s +:+ String Json.DQ rest) = Some (s, rest).
Proof.
  induction s as [|c s IH]; [reflexivity|].
  simpl Json.escape. rewrite append_assoc, scanstring_escape_char, IH. reflexivity.
Qed.

Lemma parse_string_encode_str s rest :
  JsonDecode.parse_string (Json.encode_str s +:+ rest) = Some (s, rest).
Proof.
  unfold Json.encode_str. simpl. rewrite append_assoc. apply scanstring_escape.
Qed.

Lemma dumps_single k v :
  Json.dumps [(k, v)] "," ":"
  = "{" +:+ Json.encode_str k +:+ ":" +:+ Json.encode_str v +:+ "}".
Proof.
  unfold Json.dumps, join. cbn [String.concat map fst snd].
  rewrite !append_assoc. reflexivity.
Qed.

Lemma encode_str_app s rest :
  Json.encode_str s +:+ rest = String Json.DQ (Json.escape s +:+ String Json.DQ rest).
Proof. unfold Json.encode_str. simpl. rewrite append_assoc. reflexivity. Qed.

Lemma loads_dumps_single k v :
  JsonDecode.loads (Json.dumps [(k, v)] "," ":") = Some [(k, v)].
Proof.
  rewrite dumps_single, !encode_str_app. unfold JsonDecode.loads. simpl.
  rewrite scanstring_escape. simpl. rewrite scanstring_escape. reflexivity.
Qed.

Lemma decode_convertToJson x :
  JsonDecode.decode_mermaid_syntax (convertToJson x)
  = Some (join NL (map strip (splitlines (strip x)))).
Proof.
  unfold JsonDecode.decode_mermaid_syntax, convertToJson. cbv zeta.
  rewrite loads_dumps_single. reflexivity.
Qed.

(** C5, as the code has it: the serializer first trims the whole text, then
    splits it into lines, trims each line and joins the lines with one
    newline; its output is [{"mermaid_syntax":"..."}] with nothing between
    the tokens; decoding the output and reading [mermaid_syntax] gives the
    joined text back, for every input; that is the specification's
    normalization of the trimmed input, and of the input itself when the
    input has no white space at either end, as the code of every artifact
    has. *)
Theorem serializer_round_trip (x : string) :
  let joined := join NL (map strip (splitlines (strip x))) in
  convertToJson x
  = "{" +:+ Json.encode_str "mermaid_syntax" +:+ ":" +:+ Json.encode_str joined +:+ "}"
  /\ JsonDecode.decode_mermaid_syntax (convertToJson x) = Some joined
  /\ joined = Spec.normalize (strip x)
  /\ (strip x = x ->
      JsonDecode.decode_mermaid_syntax (convertToJson x) = Some (Spec.normalize x))
  /\ (forall text a,
        clean_mermaid_code text = Return a ->
        JsonDecode.decode_mermaid_syntax (convertToJson (code a))
        = Some (Spec.normalize (code a))).
Proof.
  cbv zeta. split; [apply dumps_single|].
  split; [apply decode_convertToJson|].
  split; [reflexivity|].
  split.
  - intros H. rewrite decode_convertToJson, H. reflexivity.
  - intros text a H. rewrite decode_convertToJson.
    destruct (clean_mermaid_code_cases text) as [E|[ty E]]; rewrite E in H;
      [discriminate H|]. injection H as <-. simpl code.
    rewrite strip_idempotent. reflexivity.
Qed.

Lemma serializer_round_trip_witness :
  JsonDecode.decode_mermaid_syntax (convertToJson ("graph TD" +:+ NL +:+ "  A-->B"))
  = Some (Spec.normalize ("graph TD" +:+ NL +:+ "  A-->B")).
Proof.
  exact (proj1 (proj2 (proj2 (proj2
           (serializer_round_trip ("graph TD" +:+ NL +:+ "  A-->B"))))) eq_refl).
Defined.

(** C5 as stated fails: on a text that begins with a blank line the decoded
    field is not the line-by-line normalization of that text, which keeps
    the empty first line; the [/diagram] variant passes such a text. *)
Lemma serializer_drops_leading_blank_line :
  JsonDecode.decode_mermaid_syntax (convertToJson (NL +:+ "graph TD")) = Some "graph TD"
  /\ Spec.normalize (NL +:+ "graph TD") = NL +:+ "graph TD"
  /\ JsonDecode.decode_mermaid_syntax (convertToJson PythonFastapi.mermaid)
     <> Some (Spec.normalize PythonFastapi.mermaid).
Proof. repeat split; try (vm_compute; reflexivity). vm_compute. discriminate. Qed.

(** ** Worked examples *)

Example splitlines_ex :
  splitlines ("a" +:+ String CR (String LF "b") +:+ NL +:+ NL) = ["a"; "b"; EmptyString].
Proof. reflexivity. Qed.

Example clean_graph :
  clean_mermaid_code ("  graph TD" +:+ NL +:+ "  A-->B" +:+ NL)
  = Return {| type := "flowchart"; code := "graph TD" +:+ NL +:+ "  A-->B" |}.
Proof. reflexivity. Qed.

Example convert_graph :
  convertToJson ("graph TD" +:+ NL +:+ "  A-->B")
  = "{" +:+ Json.encode_str "mermaid_syntax" +:+ ":"
        +:+ String Json.DQ ("graph TD\nA-->B" +:+ String Json.DQ "}").
Proof. reflexivity. Qed.

Example end_to_end :
  fst (receive_diagram (stub_env ("graph TD" +:+ NL +:+ "A[Start]-->B[Check]"))
         {| requirement := "Driver must be alerted if seatbelt unbuckled for 3s";
            diagram_type := "flowchart" |} ∅)
  = Return {| status := "success";
              echoed_requirement := "Driver must be alerted if seatbelt unbuckled for 3s";
              echoed_diagram_type := "flowchart";
              Detected_Diagram_Type := "flowchart";
              Clean_Mermaid_Code := "graph TD" +:+ NL +:+ "A[Start]-->B[Check]";
              Json_Mermaid_Code :=
                "{" +:+ Json.encode_str "mermaid_syntax" +:+ ":"
                    +:+ String Json.DQ ("graph TD\nA[Start]-->B[Check]" +:+ String Json.DQ "}") |}.
Proof. vm_compute. reflexivity. Qed.

Example empty_text :
  fst (receive_diagram (stub_env EmptyString) {| requirement := "r"; diagram_type := "graph" |} ∅)
  = Raise (HTTPException 502 "Gemini API error: 502: Gemini API returned empty response").
Proof. vm_compute. reflexivity. Qed.

(** * Further properties of the code *)

(** ** The classifier *)

(** X1: white space around a text does not change what the classifier
    returns. *)
Theorem clean_mermaid_code_ignores_padding (ws1 text ws2 : string) :
  all_space ws1 = true -> all_space ws2 = true ->
  clean_mermaid_code (ws1 +:+ text +:+ ws2) = clean_mermaid_code text.
Proof.
  intros H1 H2. rewrite !clean_mermaid_code_by_text.
  rewrite strip_padded by assumption. reflexivity.
Qed.

Lemma clean_mermaid_code_ignores_padding_witness :
  clean_mermaid_code (NL +:+ "classDiagram" +:+ "  ") = clean_mermaid_code "classDiagram".
Proof.
  exact (clean_mermaid_code_ignores_padding NL "classDiagram" "  " eq_refl eq_refl).
Defined.

(** X2: the code of an artifact classifies to that same artifact: the
    classifier is idempotent on what it returns. *)
Theorem clean_mermaid_code_fixpoint (text : string) (a : Artifact) :
  clean_mermaid_code text = Return a ->
  clean_mermaid_code (code a) = Return a.
Proof.
  intros H. destruct (clean_mermaid_code_cases text) as [E|[ty E]];
    rewrite E in H; [discriminate H|]. injection H as <-. simpl code.
  rewrite clean_mermaid_code_by_text in *. rewrite strip_idempotent. exact E.
Qed.

Lemma clean_mermaid_code_fixpoint_witness :
  clean_mermaid_code ("graph TD" +:+ NL +:+ "  A-->B")
  = Return {| type := "flowchart"; code := "graph TD" +:+ NL +:+ "  A-->B" |}.
Proof.
  exact (clean_mermaid_code_fixpoint ("  graph TD" +:+ NL +:+ "  A-->B" +:+ NL)
           {| type := "flowchart"; code := "graph TD" +:+ NL +:+ "  A-->B" |} eq_refl).
Defined.

Lemma lower_nonspace_starts p h :
  lower p = h -> no_space h = true -> h <> EmptyString -> starts_nonspace p = true.
Proof.
  destruct p as [|c p]; simpl; [intros <-; congruence|].
  intros <- H _. simpl in H. apply andb_true_iff in H as [H _].
  rewrite isspace_lower_char in H. exact H.
Qed.

Lemma startswith_refl_app s t : startswith (s +:+ t) s = true.
Proof.
  induction s as [|c s IH]; simpl; [apply startswith_nil_r|].
  rewrite Ascii.eqb_refl. exact IH.
Qed.

Lemma startswith_head s a h b h' :
  startswith s (String a h) = true -> startswith s (String b h') = true -> a = b.
Proof.
  destruct s as [|c s]; [discriminate|]. rewrite !startswith_cons.
  destruct (Ascii.eqb a c) eqn:A; [|discriminate].
  destruct (Ascii.eqb b c) eqn:B; [|discriminate].
  apply Ascii.eqb_eq in A, B. congruence.
Qed.

(** X3: a text that begins with a header in any letter case is classified
    as that header's kind whatever follows the header, on the same line or
    after it: the match is a prefix match, with no word boundary. *)
Theorem clean_mermaid_code_prefix_match (p h rest : string) :
  In h headers -> lower p = h ->
  clean_mermaid_code (p +:+ rest)
  = Return {| type := Spec.kind_of_header h; code := strip (p +:+ rest) |}.
Proof.
  intros Hin Hp.
  assert (no_space h = true /\ h <> EmptyString) as [Hns Hne].
  { simpl in Hin. destruct Hin as [E|[E|[E|[E|[]]]]]; rewrite <- E;
      (split; [reflexivity | discriminate]). }
  pose proof (lower_nonspace_starts p h Hp Hns Hne) as Hs.
  assert (startswith (lower (strip (p +:+ rest))) h = true) as Hh.
  { unfold strip. rewrite startswith_lower_rstrip by assumption.
    rewrite lstrip_id.
    - rewrite lower_app, Hp. apply startswith_refl_app.
    - destruct p; [simpl in Hp; congruence | exact Hs]. }
  rewrite clean_mermaid_code_by_text. cbv zeta.
  set (start := lower (strip (p +:+ rest))) in *.
  simpl in Hin. destruct Hin as [E|[E|[E|[E|[]]]]]; rewrite <- E in *; rewrite ?Hh.
  - reflexivity.
  - rewrite orb_true_r. reflexivity.
  - destruct (startswith start "graph") eqn:G;
      [discriminate (startswith_head _ _ _ _ _ Hh G)|].
    destruct (startswith start "flowchart") eqn:F;
      [discriminate (startswith_head _ _ _ _ _ Hh F)|].
    reflexivity.
  - destruct (startswith start "graph") eqn:G;
      [discriminate (startswith_head _ _ _ _ _ Hh G)|].
    destruct (startswith start "flowchart") eqn:F;
      [discriminate (startswith_head _ _ _ _ _ Hh F)|].
    destruct (startswith start "sequencediagram") eqn:S;
      [discriminate (startswith_head _ _ _ _ _ Hh S)|].
    reflexivity.
Qed.

Lemma clean_mermaid_code_prefix_match_witness :
  clean_mermaid_code ("GRAPHics are fun" +:+ NL +:+ "x")
  = Return {| type := "flowchart"; code := "GRAPHics are fun" +:+ NL +:+ "x" |}.
Proof.
  exact (clean_mermaid_code_prefix_match "GRAPH" "graph" ("ics are fun" +:+ NL +:+ "x")
           (or_introl eq_refl) eq_refl).
Defined.

(** X4: an empty text and a text of white space only are refused with
    [ValueError]. *)
Theorem clean_mermaid_code_blank (text : string) :
  all_space text = true ->
  clean_mermaid_code text = Raise (ValueError "Invalid mermaid code").
Proof.
  intros H. rewrite clean_mermaid_code_by_text, (strip_all_space text H). reflexivity.
Qed.

Lemma clean_mermaid_code_blank_witness :
  clean_mermaid_code (" " +:+ NL) = Raise (ValueError "Invalid mermaid code").
Proof. exact (clean_mermaid_code_blank (" " +:+ NL) eq_refl). Defined.

(** ** The serializer *)

(** X5: white space around a text does not change its serialization. *)
Theorem convertToJson_ignores_padding (ws1 x ws2 : string) :
  all_space ws1 = true -> all_space ws2 = true ->
  convertToJson (ws1 +:+ x +:+ ws2) = convertToJson x.
Proof.
  intros H1 H2. unfold convertToJson. rewrite strip_padded by assumption. reflexivity.
Qed.

Lemma convertToJson_ignores_padding_witness :
  convertToJson (NL +:+ "graph TD" +:+ " ") = convertToJson "graph TD".
Proof. exact (convertToJson_ignores_padding NL "graph TD" " " eq_refl eq_refl). Defined.

(** X6: serializing the code of the artifact, as [/api/fetch_req_diagramType]
    does, and serializing the text the artifact was classified from, as
    [/diagram] does, give the same JSON. *)
Theorem convertToJson_of_artifact_code (text : string) (a : Artifact) :
  clean_mermaid_code text = Return a ->
  convertToJson (code a) = convertToJson text.
Proof.
  intros H. destruct (clean_mermaid_code_cases text) as [E|[ty E]];
    rewrite E in H; [discriminate H|]. injection H as <-. simpl code.
  unfold convertToJson. rewrite strip_idempotent. reflexivity.
Qed.

Lemma convertToJson_of_artifact_code_witness :
  convertToJson (strip PythonFastapi.mermaid) = convertToJson PythonFastapi.mermaid.
Proof.
  exact (convertToJson_of_artifact_code PythonFastapi.mermaid
           {| type := "flowchart"; code := strip PythonFastapi.mermaid |} eq_refl).
Defined.

Lemma all_printable_app s t :
  all_printable (s +:+ t) = all_printable s && all_printable t.
Proof. induction s; simpl; [reflexivity|]. rewrite IHs. apply andb_assoc. Qed.

Lemma escape_char_printable c : all_printable (Json.escape_char c) = true.
Proof. each_char c; reflexivity. Qed.

Lemma escape_printable s : all_printable (Json.escape s) = true.
Proof.
  induction s as [|c s IH]; [reflexivity|]. simpl.
  rewrite all_printable_app, escape_char_printable, IH. reflexivity.
Qed.

Lemma encode_str_printable s : all_printable (Json.encode_str s) = true.
Proof.
  unfold Json.encode_str. cbn [all_printable].
  rewrite all_printable_app, escape_printable. reflexivity.
Qed.

(** X7: the JSON text holds printable ASCII characters only, whatever the
    diagram text holds: no raw newline, control character or character
    above U+007E. *)
Theorem convertToJson_printable (x : string) :
  all_printable (convertToJson x) = true.
Proof.
  unfold convertToJson. cbv zeta.
  rewrite dumps_single, !all_printable_app, !encode_str_printable. reflexivity.
Qed.

(** X8: an empty text and a text of white space only serialize to the
    object whose [mermaid_syntax] is the empty string. *)
Theorem convertToJson_blank (x : string) :
  all_space x = true ->
  convertToJson x = convertToJson EmptyString
  /\ JsonDecode.decode_mermaid_syntax (convertToJson x) = Some EmptyString.
Proof.
  intros H. unfold convertToJson. rewrite (strip_all_space x H). split; reflexivity.
Qed.

Lemma convertToJson_blank_witness :
  JsonDecode.decode_mermaid_syntax (convertToJson (NL +:+ "  ")) = Some EmptyString.
Proof. exact (proj2 (convertToJson_blank (NL +:+ "  ") eq_refl)). Defined.

Lemma convertToJson_eq_iff (x y : string) :
  convertToJson x = convertToJson y <-> joined_mermaid x = joined_mermaid y.
Proof.
  split; intros H.
  - pose proof (decode_convertToJson x) as Hx. pose proof (decode_convertToJson y) as Hy.
    rewrite H, Hy in Hx. injection Hx as Hx. unfold joined_mermaid. congruence.
  - unfold convertToJson, joined_mermaid in *. cbv zeta. rewrite H. reflexivity.
Qed.

(** X9: two texts have the same serialization exactly when their trimmed
    lines agree: no two different normalized diagrams share a JSON text. *)
Theorem convertToJson_injective (x y : string) :
  convertToJson x = convertToJson y <-> joined_mermaid x = joined_mermaid y.
Proof. apply convertToJson_eq_iff. Qed.

Lemma no_linebreak_splitlines s : Forall (fun l => no_linebreak l = true) (splitlines s).
Proof.
  assert (forall s, Forall (fun l => no_linebreak l = true) (splitlines s)
                    /\ forall c, Forall (fun l => no_linebreak l = true)
                                   (splitlines (String c s))) as H.
  { clear s. induction s as [|a s [IH1 IH2]].
    - split; [constructor|]. intros c. simpl. destruct (is_linebreak c) eqn:Hc.
      + repeat constructor.
      + repeat constructor. simpl. rewrite Hc. reflexivity.
    - split; [apply IH2|]. intros c.
      change (splitlines (String c (String a s)))
        with (if is_linebreak c then
                if Ascii.eqb c CR && Ascii.eqb a LF
                then EmptyString :: splitlines s
                else EmptyString :: splitlines (String a s)
              else match splitlines (String a s) with
                   | l :: ls => String c l :: ls
                   | [] => [String c EmptyString]
                   end).
      destruct (is_linebreak c) eqn:Hc.
      + destruct (_ && _); constructor; auto.
      + specialize (IH2 a). destruct (splitlines (String a s)) as [|l ls].
        * repeat constructor. simpl. rewrite Hc. reflexivity.
        * inversion IH2; subst. constructor; [|assumption].
          simpl. rewrite Hc. assumption. }
  apply H.
Qed.

Lemma no_linebreak_lstrip l : no_linebreak l = true -> no_linebreak (lstrip l) = true.
Proof.
  induction l as [|c l IH]; simpl; [reflexivity|]. intros H.
  destruct (isspace c); [|exact H]. apply andb_true_iff in H as [_ H]. auto.
Qed.

Lemma no_linebreak_rstrip l : no_linebreak l = true -> no_linebreak (rstrip l) = true.
Proof.
  induction l as [|c l IH]; simpl; [reflexivity|]. intros H.
  apply andb_true_iff in H as [Hc H]. specialize (IH H).
  destruct (rstrip l).
  - destruct (isspace c); simpl; [reflexivity | rewrite Hc; reflexivity].
  - simpl in *. rewrite Hc. exact IH.
Qed.

Lemma no_linebreak_strip l : no_linebreak l = true -> no_linebreak (strip l) = true.
Proof. intros H. apply no_linebreak_rstrip, no_linebreak_lstrip, H. Qed.

Lemma splitlines_line_then_rest m rest :
  no_linebreak m = true ->
  splitlines (m +:+ String LF rest) = m :: splitlines rest.
Proof.
  induction m as [|c m IH]; intros H.
  - simpl. destruct rest; reflexivity.
  - simpl in H. apply andb_true_iff in H as [Hc H]. apply negb_true_iff in Hc.
    simpl. rewrite Hc, (IH H). reflexivity.
Qed.

Lemma splitlines_one_line m :
  no_linebreak m = true -> m <> EmptyString -> splitlines m = [m].
Proof.
  induction m as [|c m IH]; intros H Hne; [congruence|].
  simpl in H. apply andb_true_iff in H as [Hc H]. apply negb_true_iff in Hc.
  simpl. rewrite Hc. destruct m as [|d m]; [reflexivity|].
  rewrite (IH H) by discriminate. reflexivity.
Qed.

Lemma join_cons sep m m' ms :
  join sep (m :: m' :: ms) = m +:+ sep +:+ join sep (m' :: ms).
Proof. reflexivity. Qed.

Lemma splitlines_join ms :
  Forall (fun l => no_linebreak l = true) ms ->
  List.last ms EmptyString <> EmptyString ->
  splitlines (join NL ms) = ms.
Proof.
  induction ms as [|m ms IH]; intros Hall Hlast; [reflexivity|].
  inversion Hall as [|? ? Hm Hms]; subst.
  destruct ms as [|m' ms].
  - apply splitlines_one_line; assumption.
  - rewrite join_cons. change (NL +:+ join NL (m' :: ms)) with (String LF (join NL (m' :: ms))).
    rewrite splitlines_line_then_rest by assumption. f_equal. apply IH; assumption.
Qed.

Lemma strip_empty_all_space l : strip l = EmptyString -> all_space l = true.
Proof.
  intros H. destruct (strip_decompose l) as (ws1 & ws2 & Hl & H1 & H2 & _).
  rewrite H in Hl. rewrite Hl, all_space_app, H1. exact H2.
Qed.

Lemma last_line_not_blank s :
  s <> EmptyString -> ends_nonspace s = true ->
  all_space (List.last (splitlines s) EmptyString) = false.
Proof.
  assert (forall s,
            (s <> EmptyString -> ends_nonspace s = true ->
             all_space (List.last (splitlines s) EmptyString) = false)
            /\ forall c, ends_nonspace (String c s) = true ->
                         all_space (List.last (splitlines (String c s)) EmptyString) = false) as H.
  { clear s. induction s as [|a s [IH1 IH2]].
    - split; [congruence|]. intros c Hc. simpl in Hc. apply negb_true_iff in Hc.
      assert (is_linebreak c = false) as Hb.
      { destruct (is_linebreak c) eqn:E; [|reflexivity].
        apply linebreak_is_space in E. congruence. }
      simpl. rewrite Hb. simpl. rewrite Hc. reflexivity.
    - split; [intros _; apply IH2|]. intros c Hc.
      change (ends_nonspace (String c (String a s))) with (ends_nonspace (String a s)) in Hc.
      change (splitlines (String c (String a s)))
        with (if is_linebreak c then
                if Ascii.eqb c CR && Ascii.eqb a LF
                then EmptyString :: splitlines s
                else EmptyString :: splitlines (String a s)
              else match splitlines (String a s) with
                   | l :: ls => String c l :: ls
                   | [] => [String c EmptyString]
                   end).
      specialize (IH2 a Hc).
      destruct (splitlines_cons a s) as (l & ls & E).
      destruct (is_linebreak c) eqn:Hb.
      + destruct (Ascii.eqb c CR && Ascii.eqb a LF) eqn:Hcr.
        * apply andb_true_iff in Hcr as [_ Ha].
          destruct s as [|b s].
          { simpl in Hc. apply negb_true_iff in Hc.
            apply LF_is_linebreak, linebreak_is_space in Ha. congruence. }
          destruct (splitlines_cons b s) as (l' & ls' & E').
          rewrite E'. change (List.last (EmptyString :: l' :: ls') EmptyString)
            with (List.last (l' :: ls') EmptyString).
          rewrite <- E'. apply IH1; [discriminate | exact Hc].
        * rewrite E in *. exact IH2.
      + rewrite E in *. destruct ls as [|l2 ls].
        * simpl in *. rewrite IH2. apply andb_false_r.
        * exact IH2. }
  apply H.
Qed.

Lemma last_map_strip ls d :
  ls <> [] -> List.last (map strip ls) d = strip (List.last ls EmptyString).
Proof.
  induction ls as [|l ls IH]; [congruence|]. intros _.
  destruct ls as [|l' ls]; [reflexivity|].
  change (List.last (map strip (l :: l' :: ls)) d) with (List.last (map strip (l' :: ls)) d).
  change (List.last (l :: l' :: ls) EmptyString) with (List.last (l' :: ls) EmptyString).
  apply IH. discriminate.
Qed.

Lemma ends_nonspace_join ms :
  Forall (fun l => ends_nonspace l = true) ms ->
  List.last ms EmptyString <> EmptyString ->
  ends_nonspace (join NL ms) = true /\ join NL ms <> EmptyString.
Proof.
  induction ms as [|m ms IH]; intros Hall Hlast; [simpl in Hlast; congruence|].
  inversion Hall as [|? ? Hm Hms]; subst.
  destruct ms as [|m' ms].
  - simpl in *. split; assumption.
  - destruct (IH Hms Hlast) as [He Hne]. rewrite join_cons.
    assert (NL +:+ join NL (m' :: ms) <> EmptyString) as Hn by discriminate.
    split.
    + rewrite ends_nonspace_app by exact Hn.
      change (NL +:+ join NL (m' :: ms)) with (String LF (join NL (m' :: ms))).
      destruct (join NL (m' :: ms)) eqn:E; [congruence|]. exact He.
    + destruct m; discriminate.
Qed.

Lemma strip_ends s : ends_nonspace (strip s) = true.
Proof. apply rstrip_ends. Qed.

Lemma strip_fixed s :
  starts_nonspace s = true -> ends_nonspace s = true -> strip s = s.
Proof. intros H1 H2. unfold strip. rewrite lstrip_id by assumption. apply rstrip_id, H2. Qed.

(** X10: the serializer's normalization is idempotent: the text read back
    from [mermaid_syntax] is its own normalization, so serializing it again
    gives the same JSON. *)
Theorem convertToJson_idempotent (x : string) :
  JsonDecode.decode_mermaid_syntax (convertToJson x) = Some (joined_mermaid x)
  /\ joined_mermaid (joined_mermaid x) = joined_mermaid x
  /\ convertToJson (joined_mermaid x) = convertToJson x.
Proof.
  split; [apply decode_convertToJson|].
  assert (joined_mermaid (joined_mermaid x) = joined_mermaid x) as H.
  2: { split; [exact H|]. apply convertToJson_eq_iff, H. }
  unfold joined_mermaid at 2 3.
  pose proof (strip_starts x) as Hs. pose proof (strip_ends x) as He.
  destruct (strip x) as [|c r] eqn:Ex; [reflexivity|].
  set (ls := splitlines (String c r)).
  assert (isspace c = false) as Hc by (apply negb_true_iff; exact Hs).
  assert (is_linebreak c = false) as Hb.
  { destruct (is_linebreak c) eqn:E; [|reflexivity].
    apply linebreak_is_space in E. congruence. }
  assert (exists l ls', ls = String c l :: ls') as (l & ls' & El).
  { unfold ls. simpl. rewrite Hb. destruct (splitlines r); eauto. }
  assert (List.last (map strip ls) EmptyString <> EmptyString) as Hlast.
  { rewrite last_map_strip by (rewrite El; discriminate). intros E.
    apply strip_empty_all_space in E. unfold ls in E.
    rewrite (last_line_not_blank (String c r)) in E; [discriminate E|discriminate|exact He]. }
  assert (Forall (fun l => no_linebreak l = true) (map strip ls)) as Hnb.
  { apply List.Forall_map. eapply List.Forall_impl; [|apply no_linebreak_splitlines].
    intros a Ha. apply no_linebreak_strip, Ha. }
  assert (Forall (fun l => ends_nonspace l = true) (map strip ls)) as Hen.
  { apply List.Forall_map, List.Forall_forall. intros a _. apply strip_ends. }
  destruct (ends_nonspace_join _ Hen Hlast) as [Hje _].
  assert (starts_nonspace (join NL (map strip ls)) = true) as Hjs.
  { rewrite El. simpl map.
    destruct (rstrip_cons_nonspace c l Hc) as [r' Er].
    assert (strip (String c l) = String c r') as ->.
    { unfold strip. simpl lstrip. rewrite Hc. exact Er. }
    destruct (map strip ls'); simpl; rewrite Hc; reflexivity. }
  unfold joined_mermaid. rewrite (strip_fixed _ Hjs Hje).
  rewrite splitlines_join by assumption.
  rewrite List.map_map. f_equal. apply List.map_ext. intros a. apply strip_idempotent.
Qed.

(** ** The sanitizer *)

(** X11: on a fenced block, with white space around it and a tag of
    letters (or no tag) behind the opening fence, [sanitize_candidate]
    returns the body, trimmed. *)
Theorem sanitize_candidate_strips_fences (ws1 tag body ws2 : string) :
  all_space ws1 = true -> all_space ws2 = true -> all_letters tag = true ->
  sanitize_candidate
    (ws1 +:+ ("```" +:+ tag +:+ NL +:+ body +:+ NL +:+ "```") +:+ ws2)
  = strip body.
Proof. apply sanitize_candidate_fenced. Qed.

Lemma sanitize_candidate_strips_fences_witness :
  sanitize_candidate
    (NL +:+ ("```" +:+ "mermaid" +:+ NL +:+ "  classDiagram" +:+ NL +:+ "```") +:+ " ")
  = "classDiagram".
Proof.
  exact (sanitize_candidate_strips_fences NL "mermaid" "  classDiagram" " "
           eq_refl eq_refl eq_refl).
Defined.

Lemma sub_opening_fence_id s :
  startswith s "```" = false -> sub_opening_fence s = s.
Proof.
  destruct s as [|a s]; [reflexivity|]. each_char a; try (intros _; reflexivity).
  destruct s as [|b s]; [reflexivity|]. each_char b; try (intros _; reflexivity).
  destruct s as [|c s]; [reflexivity|]. each_char c; try (intros _; reflexivity).
  intros H. simpl in H. rewrite startswith_nil_r in H. discriminate H.
Qed.

Lemma endswith_cons c s suffix :
  endswith (String c s) suffix = false ->
  String.eqb (String c s) suffix = false /\ endswith s suffix = false.
Proof. simpl. intros H. apply orb_false_iff in H. exact H. Qed.

Lemma closing_fence_none s :
  endswith s "```" = false -> ends_nonspace s = true -> closing_fence_here s = None.
Proof.
  intros He Hn. unfold closing_fence_here.
  assert (String.eqb s "```" = false) as ->.
  { destruct s; [reflexivity|]. apply (endswith_cons _ _ _ He). }
  assert (String.eqb s (NL +:+ "```") = false) as ->.
  { apply String.eqb_neq. intros ->. discriminate He. }
  assert (String.eqb s ("```" +:+ NL) = false) as ->.
  { apply String.eqb_neq. intros ->. discriminate Hn. }
  assert (String.eqb s (NL +:+ "```" +:+ NL) = false) as ->.
  { apply String.eqb_neq. intros ->. discriminate Hn. }
  reflexivity.
Qed.

Lemma sub_closing_fence_id s :
  endswith s "```" = false -> ends_nonspace s = true -> sub_closing_fence s = s.
Proof.
  induction s as [|c s IH]; intros He Hn; [reflexivity|].
  unfold sub_closing_fence; fold sub_closing_fence.
  rewrite (closing_fence_none _ He Hn). f_equal.
  apply IH; [apply (endswith_cons _ _ _ He)|].
  destruct s; [reflexivity | exact Hn].
Qed.

(** X12: a text that, once trimmed, neither starts nor ends with a fence
    is only trimmed by [sanitize_candidate]. *)
Theorem sanitize_candidate_unfenced (candidate : string) :
  startswith (strip candidate) "```" = false ->
  endswith (strip candidate) "```" = false ->
  sanitize_candidate candidate = strip candidate.
Proof.
  intros Hs He. unfold sanitize_candidate.
  rewrite sub_opening_fence_id by assumption.
  rewrite sub_closing_fence_id by (assumption || apply strip_ends).
  apply strip_idempotent.
Qed.

Lemma sanitize_candidate_unfenced_witness :
  sanitize_candidate (" graph TD" +:+ NL +:+ "A-->B" +:+ NL) = "graph TD" +:+ NL +:+ "A-->B".
Proof.
  exact (sanitize_candidate_unfenced (" graph TD" +:+ NL +:+ "A-->B" +:+ NL)
           eq_refl eq_refl).
Defined.

Lemma clean_mermaid_code_strip text :
  clean_mermaid_code (strip text) = clean_mermaid_code text.
Proof. rewrite !clean_mermaid_code_by_text, strip_idempotent. reflexivity. Qed.

(** X13: sanitizing a fenced block and then classifying it gives what
    classifying the body gives: with the sanitizer in front, the classifier
    sees through the fences. *)
Theorem sanitize_then_classify (ws1 tag body ws2 : string) :
  all_space ws1 = true -> all_space ws2 = true -> all_letters tag = true ->
  clean_mermaid_code
    (sanitize_candidate
       (ws1 +:+ ("```" +:+ tag +:+ NL +:+ body +:+ NL +:+ "```") +:+ ws2))
  = clean_mermaid_code body.
Proof.
  intros H1 H2 Ht. rewrite sanitize_candidate_fenced by assumption.
  apply clean_mermaid_code_strip.
Qed.

Lemma sanitize_then_classify_witness :
  clean_mermaid_code
    (sanitize_candidate
       (EmptyString +:+ ("```" +:+ "mermaid" +:+ NL +:+ "graph TD" +:+ NL +:+ "```")
        +:+ EmptyString))
  = clean_mermaid_code "graph TD".
Proof.
  exact (sanitize_then_classify EmptyString "mermaid" "graph TD" EmptyString
           eq_refl eq_refl eq_refl).
Defined.

Lemma drop_letters_stop tag c rest :
  all_letters tag = true -> is_ascii_letter c = false ->
  drop_letters (tag +:+ String c rest) = String c rest.
Proof.
  intros Ht Hc. induction tag as [|a tag IH]; simpl.
  - rewrite Hc. reflexivity.
  - simpl in Ht. apply andb_true_iff in Ht as [-> Ht]. exact (IH Ht).
Qed.

(** X14: the opening fence takes ASCII letters only as its tag.  When
    the letters are followed on the tag line by another character, the
    result is that character and what follows it up to the closing fence,
    trimmed; when the character is not white space (a digit, a sign) it is
    the first character of the result. *)
Theorem sanitize_candidate_tag_letters_only (tag rest : string) (c : ascii) :
  all_letters tag = true -> is_ascii_letter c = false -> Ascii.eqb c LF = false ->
  sanitize_candidate ("```" +:+ tag +:+ String c rest +:+ NL +:+ "```")
  = strip (String c rest)
  /\ (isspace c = false ->
      exists r,
        sanitize_candidate ("```" +:+ tag +:+ String c rest +:+ NL +:+ "```")
        = String c r).
Proof.
  intros Ht Hc Hlf.
  assert (sanitize_candidate ("```" +:+ tag +:+ String c rest +:+ NL +:+ "```")
          = strip (String c rest)) as Hres.
  { unfold sanitize_candidate.
    assert (strip ("```" +:+ tag +:+ String c rest +:+ NL +:+ "```")
            = "```" +:+ tag +:+ String c rest +:+ NL +:+ "```") as ->.
    { apply strip_fixed; [reflexivity|].
      repeat rewrite ends_nonspace_app
        by (intros E; apply (f_equal String.length) in E;
            rewrite ?length_app in E; simpl in E; lia).
      reflexivity. }
    simpl sub_opening_fence.
    change (String c (rest +:+ String LF "```")) with (String c (rest +:+ NL +:+ "```")).
    rewrite drop_letters_stop by assumption.
    unfold drop_newline. rewrite Hlf.
    change (String c (rest +:+ NL +:+ "```")) with (String c rest +:+ NL +:+ "```").
    rewrite sub_closing_fence_body. reflexivity. }
  split; [exact Hres|]. intros Hsp. rewrite Hres. unfold strip. simpl lstrip.
  rewrite Hsp. apply rstrip_cons_nonspace, Hsp.
Qed.

Lemma sanitize_candidate_tag_letters_only_witness :
  sanitize_candidate ("```" +:+ "c" +:+ String "+" ("+" +:+ NL +:+ "int x;") +:+ NL +:+ "```")
  = "++" +:+ NL +:+ "int x;".
Proof.
  exact (proj1 (sanitize_candidate_tag_letters_only "c" ("+" +:+ NL +:+ "int x;") "+"
                  eq_refl eq_refl eq_refl)).
Defined.

(** ** The pipeline *)

Lemma generate_returns env req dt text :
  generate_mermaid_with_gemini env req dt = Return text ->
  text <> EmptyString /\ header_test (first_line (splitlines text)) = true.
Proof.
  unfold generate_mermaid_with_gemini, full_prompt, generate_and_validate.
  destruct (resolve_diagram_type dt); [|discriminate]. simpl bind.
  destruct (read_prompt_file env) as [prompt|]; [|discriminate]. simpl bind.
  destruct (generate_content env prompt) as [t|]; [|discriminate]. simpl bind.
  destruct (String.eqb t EmptyString) eqn:E; [discriminate|].
  apply String.eqb_neq in E. rewrite (validate_first_line_eq t E).
  destruct (header_test _) eqn:Hh; [|discriminate].
  simpl. intros [= <-]. split; assumption.
Qed.

(** X15: whatever [generate_mermaid_with_gemini] returns, the classifier
    accepts: after the first-line check the [ValueError] of
    [clean_mermaid_code] cannot occur, although the check reads the first
    line of the raw text and the classifier the first line of the trimmed
    text. *)
Theorem generated_text_classifies (env : Env) (req dt text : string) :
  generate_mermaid_with_gemini env req dt = Return text ->
  exists ty, clean_mermaid_code text = Return {| type := ty; code := strip text |}.
Proof.
  intros H. apply generate_returns in H as [_ H]. apply validated_text_classifies, H.
Qed.

Lemma generated_text_classifies_witness :
  exists ty,
    clean_mermaid_code ("  Graph LR" +:+ NL)
    = Return {| type := ty; code := strip ("  Graph LR" +:+ NL) |}.
Proof.
  exact (generated_text_classifies (stub_env ("  Graph LR" +:+ NL)) "r" "class"
           ("  Graph LR" +:+ NL) eq_refl).
Defined.

Lemma clean_mermaid_code_code text a :
  clean_mermaid_code text = Return a ->
  code a = strip text /\ clean_mermaid_code (code a) = Return a.
Proof.
  intros H. destruct (clean_mermaid_code_cases text) as [E|[ty E]];
    rewrite E in H; [discriminate H|]. injection H as <-. simpl code.
  split; [reflexivity|]. rewrite clean_mermaid_code_strip. exact E.
Qed.

(** X16: the fields of a successful response agree with each other: the
    status is ["success"], the inputs are the request's, the clean code is
    trimmed and classifies to the detected type, the JSON field is the
    serialization of the clean code and decodes to its line-by-line
    normalization. *)
Theorem response_is_consistent (env : Env) (input : DiagramRequest)
    (fd : gmap string string) (resp : Response) :
  fst (receive_diagram env input fd) = Return resp ->
  status resp = "success"
  /\ echoed_requirement resp = requirement input
  /\ echoed_diagram_type resp = diagram_type input
  /\ strip (Clean_Mermaid_Code resp) = Clean_Mermaid_Code resp
  /\ clean_mermaid_code (Clean_Mermaid_Code resp)
     = Return {| type := Detected_Diagram_Type resp; code := Clean_Mermaid_Code resp |}
  /\ Json_Mermaid_Code resp = convertToJson (Clean_Mermaid_Code resp)
  /\ JsonDecode.decode_mermaid_syntax (Json_Mermaid_Code resp)
     = Some (Spec.normalize (Clean_Mermaid_Code resp)).
Proof.
  rewrite receive_diagram_result.
  destruct (generate_mermaid_with_gemini _ _ _) as [m|[]]; simpl; try discriminate.
  destruct (clean_mermaid_code m) as [a|[]] eqn:E; simpl; try discriminate.
  intros [= <-]. simpl. destruct (clean_mermaid_code_code m a E) as [Hc Hf].
  assert (strip (code a) = code a) as Hs by (rewrite Hc; apply strip_idempotent).
  repeat split; try reflexivity; try assumption.
  - destruct a; exact Hf.
  - rewrite decode_convertToJson. unfold Spec.normalize. rewrite Hs. reflexivity.
Qed.

Lemma response_is_consistent_witness :
  JsonDecode.decode_mermaid_syntax
    ("{" +:+ Json.encode_str "mermaid_syntax" +:+ ":"
         +:+ String Json.DQ ("graph TD\nA-->B" +:+ String Json.DQ "}"))
  = Some (Spec.normalize ("graph TD" +:+ NL +:+ "  A-->B")).
Proof.
  exact (proj2 (proj2 (proj2 (proj2 (proj2 (proj2
    (response_is_consistent (stub_env (" graph TD" +:+ NL +:+ "  A-->B"))
       {| requirement := "r"; diagram_type := "graph" |} ∅
       {| status := "success"; echoed_requirement := "r"; echoed_diagram_type := "graph";
          Detected_Diagram_Type := "flowchart";
          Clean_Mermaid_Code := "graph TD" +:+ NL +:+ "  A-->B";
          Json_Mermaid_Code :=
            "{" +:+ Json.encode_str "mermaid_syntax" +:+ ":"
                +:+ String Json.DQ ("graph TD\nA-->B" +:+ String Json.DQ "}") |}
       eq_refl))))))).
Defined.

(** X17: past the look-up, neither the requirement nor the requested kind
    has any effect on the diagram: two requests with supported kinds get the
    same detected type, clean code and JSON, or the same error, from the
    same model answer; a request for a class diagram answered with a
    flowchart is a success with detected type flowchart. *)
Theorem kind_and_requirement_unused (env : Env) (in1 in2 : DiagramRequest)
    (k1 k2 : string) (fd1 fd2 : gmap string string) :
  resolve_diagram_type (diagram_type in1) = Return k1 ->
  resolve_diagram_type (diagram_type in2) = Return k2 ->
  payload (fst (receive_diagram env in1 fd1)) = payload (fst (receive_diagram env in2 fd2)).
Proof.
  intros H1 H2. rewrite !receive_diagram_cases, H1, H2.
  destruct (read_prompt_file env) as [prompt|[]]; try reflexivity.
  destruct (generate_content env prompt) as [text|]; [|reflexivity].
  destruct (String.eqb text EmptyString); [reflexivity|].
  destruct (header_test _); [|reflexivity].
  destruct (clean_mermaid_code text); reflexivity.
Qed.

Lemma kind_and_requirement_unused_witness :
  payload (fst (receive_diagram (stub_env "graph TD")
                  {| requirement := "door"; diagram_type := "class" |} ∅))
  = payload (fst (receive_diagram (stub_env "graph TD")
                    {| requirement := "belt"; diagram_type := "sequence" |} ∅)).
Proof.
  exact (kind_and_requirement_unused (stub_env "graph TD")
           {| requirement := "door"; diagram_type := "class" |}
           {| requirement := "belt"; diagram_type := "sequence" |}
           "Class" "Sequence" ∅ ∅ eq_refl eq_refl).
Defined.

(** X18: the answer to a request does not depend on what [fetched_data]
    held before; the handler leaves the dict with its two keys set to the
    request's inputs and every other key as it was. *)
Theorem receive_diagram_and_the_dict (env : Env) (input : DiagramRequest)
    (fd fd' : gmap string string) :
  fst (receive_diagram env input fd) = fst (receive_diagram env input fd')
  /\ snd (receive_diagram env input fd) !! "requirement" = Some (requirement input)
  /\ snd (receive_diagram env input fd) !! "diagram_type" = Some (diagram_type input)
  /\ (forall k : string, k <> "requirement" -> k <> "diagram_type" ->
        snd (receive_diagram env input fd) !! k = fd !! k).
Proof.
  split; [rewrite !receive_diagram_result; reflexivity|].
  simpl snd. unfold store_inputs. repeat split.
  - rewrite lookup_insert_ne by discriminate. apply lookup_insert_eq.
  - apply lookup_insert_eq.
  - intros k H1 H2. rewrite !lookup_insert_ne by congruence. reflexivity.
Qed.

Lemma serve_app ts1 : forall ts2 fd,
  EventLoop.serve (ts1 ++ ts2)%list fd
  = ((fst (EventLoop.serve ts1 fd)
      ++ fst (EventLoop.serve ts2 (snd (EventLoop.serve ts1 fd))))%list,
     snd (EventLoop.serve ts2 (snd (EventLoop.serve ts1 fd)))).
Proof.
  induction ts1 as [|t ts1 IH]; intros ts2 fd.
  - simpl. destruct (EventLoop.serve ts2 fd); reflexivity.
  - change (EventLoop.serve ((t :: ts1) ++ ts2)%list fd)
      with (let (r, fd1) := receive_diagram (EventLoop.env t) (EventLoop.input t) fd in
            let (rs, fd2) := EventLoop.serve (ts1 ++ ts2)%list fd1 in (r :: rs, fd2)).
    change (EventLoop.serve (t :: ts1) fd)
      with (let (r, fd1) := receive_diagram (EventLoop.env t) (EventLoop.input t) fd in
            let (rs, fd2) := EventLoop.serve ts1 fd1 in (r :: rs, fd2)).
    destruct (receive_diagram (EventLoop.env t) (EventLoop.input t) fd) as [r fd1].
    rewrite IH. destruct (EventLoop.serve ts1 fd1) as [rs fd2]. reflexivity.
Qed.

Lemma serve_answers tasks : forall fd,
  fst (EventLoop.serve tasks fd)
  = map (fun t => fst (receive_diagram (EventLoop.env t) (EventLoop.input t) ∅)) tasks.
Proof.
  induction tasks as [|t ts IH]; intros fd; [reflexivity|].
  change (EventLoop.serve (t :: ts) fd)
    with (let (r, fd1) := receive_diagram (EventLoop.env t) (EventLoop.input t) fd in
          let (rs, fd2) := EventLoop.serve ts fd1 in (r :: rs, fd2)).
  destruct (receive_diagram (EventLoop.env t) (EventLoop.input t) fd) as [r fd1] eqn:E.
  specialize (IH fd1). destruct (EventLoop.serve ts fd1) as [rs fd2].
  simpl in *. f_equal; [|exact IH].
  change r with (fst (r, fd1)). rewrite <- E. rewrite !receive_diagram_result. reflexivity.
Qed.

(** X19: requests served one after the other do not affect each other:
    each gets the answer it would get alone, on an empty dict, whatever came
    before it; and when the last request is done the dict is the one the
    earlier requests left, with that request's inputs stored over it. *)
Theorem serve_is_request_by_request (tasks : list EventLoop.Task) (t : EventLoop.Task)
    (fd : gmap string string) :
  fst (EventLoop.serve tasks fd)
  = map (fun t => fst (receive_diagram (EventLoop.env t) (EventLoop.input t) ∅)) tasks
  /\ snd (EventLoop.serve (tasks ++ [t])%list fd)
     = store_inputs (EventLoop.input t) (snd (EventLoop.serve tasks fd)).
Proof.
  split; [apply serve_answers|]. rewrite serve_app. reflexivity.
Qed.

(** ** The look-up of the kind, continued *)

Lemma lower_char_idempotent c : lower_char (lower_char c) = lower_char c.
Proof. each_char c; reflexivity. Qed.

Lemma lower_idempotent s : lower (lower s) = lower s.
Proof. induction s as [|c s IH]; simpl; [reflexivity|]. rewrite lower_char_idempotent, IH. reflexivity. Qed.

Lemma lstrip_lower s : lstrip (lower s) = lower (lstrip s).
Proof.
  induction s as [|c s IH]; simpl; [reflexivity|].
  rewrite isspace_lower_char. destruct (isspace c); [exact IH | reflexivity].
Qed.

Lemma rstrip_lower s : rstrip (lower s) = lower (rstrip s).
Proof.
  induction s as [|c s IH]; simpl; [reflexivity|].
  rewrite IH, isspace_lower_char. destruct (rstrip s); simpl; [|reflexivity].
  destruct (isspace c); reflexivity.
Qed.

Lemma strip_lower s : strip (lower s) = lower (strip s).
Proof. unfold strip. rewrite lstrip_lower, rstrip_lower. reflexivity. Qed.

Lemma resolve_same_key s1 s2 k :
  lower (strip s1) = lower (strip s2) ->
  resolve_diagram_type s1 = Return k -> resolve_diagram_type s2 = Return k.
Proof.
  rewrite !resolve_diagram_type_table. cbv zeta. intros ->.
  repeat match goal with |- context [if ?b then _ else _] => destruct b end;
    try exact (fun H => H). discriminate.
Qed.

(** X20: a spelling the look-up accepts stays accepted, with the same
    kind, when it is trimmed, lower-cased or wrapped in white space; the
    kinds it gives are [Flowchart], [Sequence] and [Class] and no other. *)
Theorem resolve_diagram_type_spellings (s k : string) :
  resolve_diagram_type s = Return k ->
  (k = "Flowchart" \/ k = "Sequence" \/ k = "Class")
  /\ resolve_diagram_type (strip s) = Return k
  /\ resolve_diagram_type (lower s) = Return k
  /\ (forall ws1 ws2, all_space ws1 = true -> all_space ws2 = true ->
        resolve_diagram_type (ws1 +:+ s +:+ ws2) = Return k).
Proof.
  intros H. split.
  - rewrite resolve_diagram_type_table in H. cbv zeta in H.
    repeat match type of H with
           | (if ?b then _ else _) = _ => destruct b
           end; try discriminate H; injection H as <-; auto.
  - split; [|split].
    + apply (resolve_same_key s); [|exact H]. rewrite strip_idempotent. reflexivity.
    + apply (resolve_same_key s); [|exact H].
      rewrite strip_lower, lower_idempotent. reflexivity.
    + intros ws1 ws2 H1 H2. apply (resolve_same_key s); [|exact H].
      rewrite strip_padded by assumption. reflexivity.
Qed.

Lemma resolve_diagram_type_spellings_witness :
  resolve_diagram_type (NL +:+ " ClassDiagram " +:+ "  ") = Return "Class".
Proof.
  exact (proj2 (proj2 (proj2
    (resolve_diagram_type_spellings " ClassDiagram " "Class" eq_refl)))
    NL "  " eq_refl eq_refl).
Defined.

(** ** The endpoint [/diagram] *)

(** X21: [/diagram] answers every request with a success that carries the
    request's two inputs and the fixed flowchart: its [except] clause is
    never entered and it never answers [None].  The clean code is the fixed
    text trimmed, the JSON field is the serialization of the clean code, and
    the dict is left as [/api/fetch_req_diagramType] leaves it. *)
Theorem diagram_variant_always_succeeds (input : DiagramRequest)
    (fd : gmap string string) :
  exists resp,
    PythonFastapi.receive_diagram input fd = (Return (Some resp), store_inputs input fd)
    /\ status resp = "success"
    /\ echoed_requirement resp = requirement input
    /\ echoed_diagram_type resp = diagram_type input
    /\ Detected_Diagram_Type resp = "flowchart"
    /\ Clean_Mermaid_Code resp = strip PythonFastapi.mermaid
    /\ Json_Mermaid_Code resp = convertToJson (Clean_Mermaid_Code resp).
Proof.
  destruct (diagram_variant_result input fd) as (a & Ha & Hty & Hr).
  destruct (clean_mermaid_code_code _ _ Ha) as [Hc _].
  eexists. split.
  - rewrite (surjective_pairing (PythonFastapi.receive_diagram input fd)), Hr.
    reflexivity.
  - simpl. repeat split; try assumption.
    rewrite Hc. unfold convertToJson. rewrite strip_idempotent. reflexivity.
Qed.

(** ** Two invocations, step by step *)

Lemma try_with_inputs env fd x :
  holds_inputs fd x ->
  try_except (receive_diagram_try env fd) except_clauses = fst (receive_diagram env x ∅).
Proof.
  intros [H1 H2]. rewrite receive_diagram_result. unfold receive_diagram_try.
  rewrite H1, H2. reflexivity.
Qed.

Lemma holds_after_stores x fd : holds_inputs (store_inputs x fd) x.
Proof. split; [apply getitem_requirement | apply getitem_diagram_type]. Qed.

Lemma step_keeps_invariant tA tB st pick :
  interleave_invariant tA tB st -> interleave_invariant tA tB (EventLoop.step tA tB st pick).
Proof.
  destruct st as [f s sh]. unfold interleave_invariant, answered_from. simpl.
  intros (Hsh & Hf & Hs). destruct pick; unfold EventLoop.step; simpl.
  - destruct f as [| |r]; simpl.
    + split; [right; left; apply holds_after_stores|].
      split; [intros r; discriminate | exact Hs].
    + assert (holds_inputs sh (EventLoop.input tA)
              \/ holds_inputs sh (EventLoop.input tB)) as Hh
        by (destruct Hsh as [[H _]|H]; [discriminate H | exact H]).
      split; [right; exact Hh|]. split; [|exact Hs].
      intros r [= <-]. destruct Hh as [H|H]; [left | right]; apply try_with_inputs, H.
    + split; [exact Hsh|]. split; [exact Hf | exact Hs].
  - destruct s as [| |r]; simpl.
    + split; [right; right; apply holds_after_stores|].
      split; [exact Hf | intros r; discriminate].
    + assert (holds_inputs sh (EventLoop.input tA)
              \/ holds_inputs sh (EventLoop.input tB)) as Hh
        by (destruct Hsh as [[_ H]|H]; [discriminate H | exact H]).
      split; [right; exact Hh|]. split; [exact Hf|].
      intros r [= <-]. destruct Hh as [H|H]; [left | right]; apply try_with_inputs, H.
    + split; [exact Hsh|]. split; [exact Hf | exact Hs].
Qed.

Lemma steps_keep_invariant tA tB schedule : forall st,
  interleave_invariant tA tB st ->
  interleave_invariant tA tB (fold_left (EventLoop.step tA tB) schedule st).
Proof.
  induction schedule as [|pick schedule IH]; intros st H; [exact H|].
  simpl. apply IH, step_keeps_invariant, H.
Qed.

(** X22: in whatever order the steps of two invocations are taken, an
    invocation that has finished has answered as its own handler answers on
    the inputs of one of the two requests: at worst a request is served with
    the other request's two inputs in place of its own, never with one input
    of each and never with what the dict held before. *)
Theorem interleaving_answers (schedule : list bool) (tA tB : EventLoop.Task)
    (fd : gmap string string) :
  let st := EventLoop.interleave schedule tA tB fd in
  (forall r, EventLoop.first st = EventLoop.Finished r ->
     r = fst (receive_diagram (EventLoop.env tA) (EventLoop.input tA) ∅)
     \/ r = fst (receive_diagram (EventLoop.env tA) (EventLoop.input tB) ∅))
  /\ (forall r, EventLoop.second st = EventLoop.Finished r ->
        r = fst (receive_diagram (EventLoop.env tB) (EventLoop.input tA) ∅)
        \/ r = fst (receive_diagram (EventLoop.env tB) (EventLoop.input tB) ∅)).
Proof.
  cbv zeta. unfold EventLoop.interleave.
  assert (interleave_invariant tA tB
            {| EventLoop.first := EventLoop.AtStores;
               EventLoop.second := EventLoop.AtStores;
               EventLoop.shared := fd |}) as H0.
  { split; [left; split; reflexivity|]. split; intros r; discriminate. }
  destruct (steps_keep_invariant tA tB schedule _ H0) as (_ & Hf & Hs).
  split; [exact Hf | exact Hs].
Qed.

(** ** The endpoint [/analyze] *)

Lemma extract_answers ex f m :
  UserAnalysis.content_type f = Some m ->
  exists t, UserAnalysis.extract ex f (UserAnalysis.content f) = Return t.
Proof.
  intros Hm. unfold UserAnalysis.extract. cbv zeta. rewrite Hm.
  repeat match goal with |- context [if ?b then _ else _] => destruct b end; eauto.
Qed.

(** X23: a request without a file, and a request whose file declares a
    media type, is always answered, whatever the extraction libraries do:
    the answer echoes the user input, names the file and its size in bytes,
    and carries the fixed analysis text. *)
Theorem analyze_input_answers (ex : UserAnalysis.Extractors) (ui : string)
    (file : option UserAnalysis.UploadFile) :
  match file with
  | Some f => UserAnalysis.content_type f <> None
  | None => True
  end ->
  exists r,
    UserAnalysis.analyze_input ex ui file = Return r
    /\ UserAnalysis.user_input r = ui
    /\ UserAnalysis.analysis r = "MCP AI analysis result would go here"
    /\ match file with
       | Some f =>
           UserAnalysis.file_uploaded r = true
           /\ UserAnalysis.file_name r = Some (UserAnalysis.filename f)
           /\ UserAnalysis.file_size r = String.length (UserAnalysis.content f)
       | None =>
           UserAnalysis.file_uploaded r = false
           /\ UserAnalysis.file_name r = None
           /\ UserAnalysis.file_size r = 0
           /\ UserAnalysis.extracted_text r = None
       end.
Proof.
  destruct file as [f|]; intros H; unfold UserAnalysis.analyze_input.
  - destruct (UserAnalysis.content_type f) as [m|] eqn:Hm; [|congruence].
    destruct (extract_answers ex f m Hm) as [t ->]. simpl.
    eexists. split; [reflexivity|]. simpl. repeat split.
  - simpl. eexists. split; [reflexivity|]. simpl. repeat split.
Qed.

Lemma analyze_input_answers_witness :
  exists r,
    UserAnalysis.analyze_input failing_extractors "check"
      (Some {| UserAnalysis.filename := "scan.PNG";
               UserAnalysis.content_type := Some "image/png";
               UserAnalysis.content := "abc" |}) = Return r
    /\ UserAnalysis.file_size r = 3.
Proof.
  destruct (analyze_input_answers failing_extractors "check"
              (Some {| UserAnalysis.filename := "scan.PNG";
                       UserAnalysis.content_type := Some "image/png";
                       UserAnalysis.content := "abc" |})
              ltac:(discriminate)) as (r & Hr & _ & _ & _ & _ & Hs).
  exists r. split; [exact Hr | exact Hs].
Defined.

(** X24: a failure of the PDF, DOCX or OCR library stays with the file: for
    an upload that is not read as plain text and declares a media type, when
    the libraries raise, the request is still answered, with
    [extracted_text] [None]. *)
Theorem extraction_failure_is_isolated (ex : UserAnalysis.Extractors) (ui m : string)
    (f : UserAnalysis.UploadFile) (e1 e2 e3 : exn) :
  UserAnalysis.content_type f = Some m ->
  UserAnalysis.is_text (lower (UserAnalysis.filename f)) (Some m) = false ->
  UserAnalysis.pdf_pages ex (UserAnalysis.content f) = Raise e1 ->
  UserAnalysis.docx_paragraphs ex (UserAnalysis.content f) = Raise e2 ->
  UserAnalysis.image_to_string ex (UserAnalysis.content f) = Raise e3 ->
  exists r,
    UserAnalysis.analyze_input ex ui (Some f) = Return r
    /\ UserAnalysis.extracted_text r = None
    /\ UserAnalysis.file_uploaded r = true.
Proof.
  intros Hm Ht H1 H2 H3. unfold UserAnalysis.analyze_input, UserAnalysis.extract.
  cbv zeta. rewrite Hm, Ht, H1, H2, H3. simpl.
  repeat match goal with |- context [if ?b then _ else _] => destruct b end;
    eexists; (split; [reflexivity|]); split; reflexivity.
Qed.

Lemma extraction_failure_is_isolated_witness :
  exists r,
    UserAnalysis.analyze_input failing_extractors "check"
      (Some {| UserAnalysis.filename := "report.pdf";
               UserAnalysis.content_type := Some "application/pdf";
               UserAnalysis.content := "not a pdf" |}) = Return r
    /\ UserAnalysis.extracted_text r = None
    /\ UserAnalysis.file_uploaded r = true.
Proof.
  exact (extraction_failure_is_isolated failing_extractors "check" "application/pdf"
           {| UserAnalysis.filename := "report.pdf";
              UserAnalysis.content_type := Some "application/pdf";
              UserAnalysis.content := "not a pdf" |}
           _ _ _ eq_refl eq_refl eq_refl eq_refl eq_refl).
Defined.

(** X25: an upload without a declared media type whose name does not end
    in [.txt], [.md], [.pdf] or [.docx] (in any letter case) is not
    answered: the test for images calls [startswith] on [None], and the
    [AttributeError] leaves the handler, also for a [.png] or [.jpg] file. *)
Theorem missing_media_type_raises (ex : UserAnalysis.Extractors) (ui : string)
    (f : UserAnalysis.UploadFile) :
  UserAnalysis.content_type f = None ->
  UserAnalysis.endswith_any (lower (UserAnalysis.filename f))
    [".txt"; ".md"; ".pdf"; ".docx"] = false ->
  UserAnalysis.analyze_input ex ui (Some f)
  = Raise (OtherException "'NoneType' object has no attribute 'startswith'").
Proof.
  intros Hm Hn. unfold UserAnalysis.analyze_input, UserAnalysis.extract,
    UserAnalysis.is_text, UserAnalysis.is_pdf, UserAnalysis.is_docx.
  cbv zeta. rewrite Hm. unfold UserAnalysis.endswith_any in *. simpl in *.
  rewrite !orb_false_r in *.
  apply orb_false_iff in Hn as [H1 Hn]. apply orb_false_iff in Hn as [H2 Hn].
  apply orb_false_iff in Hn as [H3 H4]. rewrite H1, H2, H3, H4. reflexivity.
Qed.

Lemma missing_media_type_raises_witness :
  UserAnalysis.analyze_input failing_extractors "check"
    (Some {| UserAnalysis.filename := "photo.png";
             UserAnalysis.content_type := None;
             UserAnalysis.content := "abc" |})
  = Raise (OtherException "'NoneType' object has no attribute 'startswith'").
Proof.
  exact (missing_media_type_raises failing_extractors "check"
           {| UserAnalysis.filename := "photo.png";
              UserAnalysis.content_type := None;
              UserAnalysis.content := "abc" |} eq_refl eq_refl).
Defined.

Lemma extract_pages_all_return texts : forall acc,
  UserAnalysis.extract_pages (map Return texts) acc
  = Return (acc +:+ String.concat EmptyString
              (map (fun t => match t with Some s => s | None => EmptyString end) texts)).
Proof.
  induction texts as [|t texts IH]; intros acc; simpl.
  - rewrite append_nil_r. reflexivity.
  - rewrite IH. f_equal. rewrite append_assoc. f_equal.
    destruct texts; simpl; [rewrite append_nil_r|]; reflexivity.
Qed.

Lemma extract_pages_one_raises pages : forall acc e,
  In (Raise e) pages -> exists e', UserAnalysis.extract_pages pages acc = Raise e'.
Proof.
  induction pages as [|p pages IH]; intros acc e Hin; [destruct Hin|].
  simpl. destruct p as [t|e0]; simpl; [|eauto].
  destruct Hin as [H|H]; [discriminate H|]. eapply IH, H.
Qed.

(** X26: the text of a PDF is all or nothing: when every page gives its
    text, [extracted_text] is the texts joined with nothing between them (a
    page without text counts as empty); when any one page raises, the texts
    of the other pages are dropped and [extracted_text] is [None]. *)
Theorem pdf_text_all_or_nothing (ex : UserAnalysis.Extractors) (ui : string)
    (f : UserAnalysis.UploadFile) (pages : list (result (option string))) :
  UserAnalysis.is_text (lower (UserAnalysis.filename f)) (UserAnalysis.content_type f) = false ->
  UserAnalysis.is_pdf (lower (UserAnalysis.filename f)) (UserAnalysis.content_type f) = true ->
  UserAnalysis.pdf_pages ex (UserAnalysis.content f) = Return pages ->
  exists r,
    UserAnalysis.analyze_input ex ui (Some f) = Return r
    /\ (forall texts, pages = map Return texts ->
          UserAnalysis.extracted_text r
          = Some (String.concat EmptyString
                    (map (fun t => match t with Some s => s | None => EmptyString end) texts)))
    /\ (forall e, In (Raise e) pages -> UserAnalysis.extracted_text r = None).
Proof.
  intros Ht Hp Hpages. unfold UserAnalysis.analyze_input, UserAnalysis.extract.
  cbv zeta. rewrite Ht, Hp, Hpages. simpl.
  eexists. split; [reflexivity|]. simpl. split.
  - intros texts ->. rewrite extract_pages_all_return. reflexivity.
  - intros e Hin. destruct (extract_pages_one_raises pages EmptyString e Hin) as [e' ->].
    reflexivity.
Qed.

Lemma pdf_text_all_or_nothing_witness :
  exists r,
    UserAnalysis.analyze_input three_page_pdf "check"
      (Some {| UserAnalysis.filename := "Spec.PDF";
               UserAnalysis.content_type := Some "application/octet-stream";
               UserAnalysis.content := "%PDF" |}) = Return r
    /\ UserAnalysis.extracted_text r = Some "Req 1. Req 2.".
Proof.
  destruct (pdf_text_all_or_nothing three_page_pdf "check"
              {| UserAnalysis.filename := "Spec.PDF";
                 UserAnalysis.content_type := Some "application/octet-stream";
                 UserAnalysis.content := "%PDF" |}
              [Return (Some "Req 1. "); Return None; Return (Some "Req 2.")]
              eq_refl eq_refl eq_refl) as (r & Hr & Hall & _).
  exists r. split; [exact Hr|].
  exact (Hall [Some "Req 1. "; None; Some "Req 2."] eq_refl).
Defined.
